(** * Options flow monitor: the fetch / aggregate / flag pipeline of [app.py]

    A shallow embedding of [OptionsDataFetcher.get_options_data],
    [OptionsDataFetcher.analyze_options], [scan_symbol] and [scan_multiple].

    Conventions of the embedding:
    - integer columns (volume, open interest) are [Z]; a missing cell (NaN)
      is [None];
    - Python floats are idealised as exact rationals [Q]; a NaN float is
      [None] where the code can produce one ([Series.mean]);
    - a call that may raise is run in the monad [IO], which also records the
      calls made to the market-data provider;
    - a DataFrame is the list of its rows, the row label being the position
      (the frames analysed come from [pd.concat(..., ignore_index=True)]). *)

From Stdlib Require Import Ascii ZArith QArith Qround Qabs Lia Lqa.
From stdpp Require Import base option list gmap strings sorting.

(** ** Python numbers *)

Module PyNum.

(** [a / b] on integers: [ZeroDivisionError] is [None]. *)
Definition truediv (a b : Z) : option Q :=
  if decide (b = 0%Z) then None else Some (inject_Z a / inject_Z b)%Q.

(** [x / n] for a float [x] and an integer [n]. *)
Definition truediv_float (x : Q) (n : Z) : option Q :=
  if decide (n = 0%Z) then None else Some (x / inject_Z n)%Q.

Definition pow10 (ndigits : nat) : Z := (10 ^ Z.of_nat ndigits)%Z.

(** Nearest integer, ties to the even one. *)
Definition round_half_even (q : Q) : Z :=
  let f := Qfloor q in
  match (q - inject_Z f ?= 1 # 2)%Q with
  | Lt => f
  | Gt => (f + 1)%Z
  | Eq => if Z.even f then f else (f + 1)%Z
  end.

(** [round(q, ndigits)]. *)
Definition round (q : Q) (ndigits : nat) : Q :=
  (inject_Z (round_half_even (q * inject_Z (pow10 ndigits)))
   / inject_Z (pow10 ndigits))%Q.

End PyNum.

(** ** Data model *)

(** One row of an option chain frame. *)
Record OptionRecord := {
  strike : Q;
  lastPrice : Q;
  volume : option Z;
  openInterest : option Z;
  impliedVolatility : option Q;
  expiration : string
}.

Abbreviation DataFrame := (list OptionRecord).

(** The dict returned by [get_options_data]. *)
Record ChainSnapshot := {
  calls : DataFrame;
  puts : DataFrame;
  current_price : Q
}.

(** One record of [topCallStrikes] / [topPutStrikes]. *)
Record TopStrike := {
  ts_strike : Q;
  ts_volume : option Z;
  ts_openInterest : option Z;
  ts_lastPrice : Q;
  ts_expiration : string
}.

(** The dict returned by [analyze_options]; [flagged] is the key that
    [scan_multiple] adds afterwards. *)
Record SymbolAnalysis := {
  symbol : string;
  currentPrice : Q;
  callVolume : Z;
  putVolume : Z;
  ratio : Q;
  callOpenInterest : Z;
  putOpenInterest : Z;
  impliedVol : Q;
  avgPutIV : Q;
  topCallStrikes : list TopStrike;
  topPutStrikes : list TopStrike;
  callVolumeByExpiration : gmap string Z;
  putVolumeByExpiration : gmap string Z;
  timestamp : string;
  flagged : option bool
}.

(** ** The pandas operations used by the code *)

Module Pandas.

Abbreviation Series A := (list (option A)).

(** [df.empty] *)
Definition empty {A} (df : list A) : bool :=
  match df with [] => true | _ :: _ => false end.

(** [s.fillna(d)] *)
Definition fillna {A} (d : A) (s : Series A) : Series A :=
  (fun v => Some (default d v)) <$> s.

(** The cells that are present. *)
Definition dropna {A} (s : Series A) : list A := omap id s.

(** [s.sum()]: missing cells are skipped, the empty sum is 0. *)
Definition sum (s : Series Z) : Z := foldl Z.add 0%Z (dropna s).

Definition sum_float (s : Series Q) : Q := foldl Qplus 0%Q (dropna s).

(** [s.mean()]: the mean of the cells that are present, NaN ([None]) when
    there is none. *)
Definition mean (s : Series Q) : option Q :=
  match dropna s with
  | [] => None
  | _ :: _ =>
      Some (sum_float s / inject_Z (Z.of_nat (length (dropna s))))%Q
  end.

(** [df['expiration'] = exp_date] *)
Definition set_expiration (exp_date : string) (df : DataFrame) : DataFrame :=
  (fun r => {| strike := strike r; lastPrice := lastPrice r;
               volume := volume r; openInterest := openInterest r;
               impliedVolatility := impliedVolatility r;
               expiration := exp_date |}) <$> df.

(** [pd.concat(frames, ignore_index=True)] *)
Definition concat (frames : list DataFrame) : DataFrame := mjoin frames.

(** [df.groupby('expiration')['volume'].sum().to_dict()]: one key per
    distinct expiration, mapped to the sum of the volumes of its rows. *)
Definition groupby_expiration_volume_sum (df : DataFrame) : gmap string Z :=
  list_to_map
    ((fun k => (k, sum (volume <$> filter (fun r => expiration r = k) df)))
       <$> remove_dups (expiration <$> df)).

(** Stable sort of labelled rows, largest key first. *)
Section Sort.
Context {A : Type} (key : A -> Z).

Fixpoint insert_desc (x : A) (l : list A) : list A :=
  match l with
  | [] => [x]
  | y :: l' =>
      if decide (key x < key y)%Z then y :: insert_desc x l'
      else x :: y :: l'
  end.

Definition sort_desc (l : list A) : list A := foldr insert_desc [] l.
End Sort.

Definition volume_key (ir : nat * OptionRecord) : Z := default 0%Z (volume ir.2).

Definition has_volume (ir : nat * OptionRecord) : Prop := is_Some (volume ir.2).

(** [df.nlargest(n, 'volume')] with the default [keep='first']: the rows
    whose volume is present, largest first and first occurrence first
    among equals, then the rows whose volume is missing in frame order;
    the first [n] of these. Each row keeps its label. *)
Definition nlargest_volume (n : nat) (df : DataFrame) : list (nat * OptionRecord) :=
  let rows := imap pair df in
  let dropped := filter has_volume rows in
  let nan_index := filter (fun ir => ¬ has_volume ir) rows in
  take n (sort_desc volume_key dropped ++ nan_index).

(** [[['strike','volume','openInterest','lastPrice','expiration']]
    .to_dict('records')] *)
Definition to_records (rows : list (nat * OptionRecord)) : list TopStrike :=
  (fun ir => {| ts_strike := strike ir.2; ts_volume := volume ir.2;
                ts_openInterest := openInterest ir.2;
                ts_lastPrice := lastPrice ir.2;
                ts_expiration := expiration ir.2 |}) <$> rows.

End Pandas.

(** [str(k)] on a key that is already a string, [int(v)] on an integral sum. *)
Definition py_str (k : string) : string := k.
Definition py_int (v : Z) : Z := v.

(** [{str(k): int(v) for k, v in d.items()}] *)
Definition dict_str_int (d : gmap string Z) : gmap string Z :=
  list_to_map ((fun kv => (py_str kv.1, py_int kv.2)) <$> map_to_list d).

(** ** Single-symbol analysis *)

(** [round(c / p, 2) if p > 0 else 0] *)
Definition call_put_ratio (total_call_volume total_put_volume : Z) : option Q :=
  if decide (total_put_volume > 0)%Z then
    q ← PyNum.truediv total_call_volume total_put_volume;
    Some (PyNum.round q 2)
  else Some 0%Q.

(** [round(avg, 4) if not pd.isna(avg) else 0] *)
Definition round_iv (avg : option Q) : Q :=
  match avg with
  | Some a => PyNum.round a 4
  | None => 0%Q
  end.

(** [analyze_options(symbol, data)]; [now] is [datetime.now().isoformat()].
    [None] stands for an exception. *)
Definition analyze_options (sym : string) (data : ChainSnapshot) (now : string)
    : option SymbolAnalysis :=
  let calls_df := calls data in
  let puts_df := puts data in
  let total_call_volume := py_int (Pandas.sum (Pandas.fillna 0%Z (volume <$> calls_df))) in
  let total_put_volume := py_int (Pandas.sum (Pandas.fillna 0%Z (volume <$> puts_df))) in
  let total_call_oi := py_int (Pandas.sum (Pandas.fillna 0%Z (openInterest <$> calls_df))) in
  let total_put_oi := py_int (Pandas.sum (Pandas.fillna 0%Z (openInterest <$> puts_df))) in
  call_put_ratio ← call_put_ratio total_call_volume total_put_volume;
  let avg_call_iv := Pandas.mean (impliedVolatility <$> calls_df) in
  let avg_put_iv := Pandas.mean (impliedVolatility <$> puts_df) in
  let top_calls := Pandas.to_records (Pandas.nlargest_volume 5 calls_df) in
  let top_puts := Pandas.to_records (Pandas.nlargest_volume 5 puts_df) in
  let call_vol_by_exp := Pandas.groupby_expiration_volume_sum calls_df in
  let put_vol_by_exp := Pandas.groupby_expiration_volume_sum puts_df in
  Some {| symbol := sym;
          currentPrice := current_price data;
          callVolume := total_call_volume;
          putVolume := total_put_volume;
          ratio := call_put_ratio;
          callOpenInterest := total_call_oi;
          putOpenInterest := total_put_oi;
          impliedVol := round_iv avg_call_iv;
          avgPutIV := round_iv avg_put_iv;
          topCallStrikes := top_calls;
          topPutStrikes := top_puts;
          callVolumeByExpiration := dict_str_int call_vol_by_exp;
          putVolumeByExpiration := dict_str_int put_vol_by_exp;
          timestamp := now;
          flagged := None |}.


(** ** Calls to the market-data provider *)

(** The provider calls that [get_options_data] can make on a ticker. *)
Inductive Event :=
  | CallHistory
  | CallInfo
  | CallOptions
  | CallOptionChain (exp_date : string).

(** How a Python call ends. *)
Inductive outcome (A : Type) :=
  | Raised
  | Returned (a : A).
Arguments Raised {A}.
Arguments Returned {A} a.

(** A computation that may raise and that records its provider calls, in
    the order they are made. An exception keeps the calls made before it. *)
Record IO (A : Type) := MkIO { result : outcome A; trace : list Event }.
Arguments MkIO {A} result trace.
Arguments result {A} _.
Arguments trace {A} _.

#[global] Instance IO_ret : MRet IO := fun A a => MkIO (Returned a) [].

#[global] Instance IO_bind : MBind IO := fun A B f m =>
  match result m with
  | Raised => MkIO Raised (trace m)
  | Returned a => MkIO (result (f a)) (trace m ++ trace (f a))
  end.

Definition raise {A} : IO A := MkIO Raised [].

(** [try: body / except Exception: handler] *)
Definition try_except {A} (body handler : IO A) : IO A :=
  match result body with
  | Raised => MkIO (result handler) (trace body ++ trace handler)
  | Returned a => body
  end.

(** A provider call: its outcome, with the call recorded. *)
Definition provider_call {A} (ev : Event) (o : outcome A) : IO A := MkIO o [ev].

(** An exception of pure code, lifted. *)
Definition lift_option {A} (o : option A) : IO A :=
  match o with
  | Some a => mret a
  | None => raise
  end.

(** What [yf.Ticker(symbol)] answers. [history] is the [Close] column of
    [ticker.history(period='1d')]; a value of [info] that is not a number
    is [None]. *)
Record Ticker := {
  history : outcome (list Q);
  info : outcome (gmap string (option Q));
  options : outcome (list string);
  option_chain : string -> outcome (DataFrame * DataFrame)
}.

(** [float(v)]: [TypeError] on a value that is not a number. *)
Definition py_float (v : option Q) : IO Q := lift_option v.

(** [d.get(key, dflt)] *)
Definition dict_get {V} (d : gmap string V) (key : string) (dflt : V) : V :=
  default dflt (d !! key).

(** ** The chain retriever *)

(** Lines 43-54: the price, 0 when it cannot be had. *)
Definition get_price (ticker : Ticker) : IO Q :=
  try_except
    (stock_info ← provider_call CallHistory (history ticker);
     if Pandas.empty stock_info then
       info ← provider_call CallInfo (info ticker);
       py_float (dict_get info "currentPrice"
                   (dict_get info "regularMarketPrice" (Some 0%Q)))
     else
       py_float (last stock_info))
    (mret 0%Q).

(** The body of the loop over the near expirations (lines 69-89). *)
Definition fetch_expiration (ticker : Ticker)
    (acc : list DataFrame * list DataFrame) (exp_date : string)
    : IO (list DataFrame * list DataFrame) :=
  try_except
    (opt_chain ← provider_call (CallOptionChain exp_date) (option_chain ticker exp_date);
     let calls := opt_chain.1 in
     let puts := opt_chain.2 in
     if Pandas.empty calls || Pandas.empty puts then mret acc
     else
       mret (acc.1 ++ [Pandas.set_expiration exp_date calls],
             acc.2 ++ [Pandas.set_expiration exp_date puts]))
    (mret acc).

(** [for exp_date in near_expirations: ...] *)
Fixpoint fetch_expirations (ticker : Ticker) (near_expirations : list string)
    (acc : list DataFrame * list DataFrame)
    : IO (list DataFrame * list DataFrame) :=
  match near_expirations with
  | [] => mret acc
  | exp_date :: rest =>
      acc' ← fetch_expiration ticker acc exp_date;
      fetch_expirations ticker rest acc'
  end.

(** [near_expirations = expirations[:min(4, len(expirations))]] *)
Definition near_expirations (expirations : list string) : list string :=
  take (Nat.min 4 (length expirations)) expirations.

(** [get_options_data(symbol)], for the ticker the provider builds for the
    symbol. [None] is Python's [None]. *)
Definition get_options_data (ticker : Ticker) : IO (option ChainSnapshot) :=
  try_except
    (current_price ← get_price ticker;
     expirations ← provider_call CallOptions (options ticker);
     if Pandas.empty expirations then mret None
     else
       all ← fetch_expirations ticker (near_expirations expirations) ([], []);
       let all_calls := all.1 in
       let all_puts := all.2 in
       if Pandas.empty all_calls || Pandas.empty all_puts then mret None
       else
         mret (Some {| calls := Pandas.concat all_calls;
                       puts := Pandas.concat all_puts;
                       current_price := current_price |}))
    (mret None).

(** ** The endpoints *)

(** The market-data provider: [yf.Ticker]. *)
Definition Provider := string -> Ticker.

(** [s.upper()] and [s.strip()] on ASCII symbols. *)
Definition upper_ascii (c : ascii) : ascii :=
  let n := nat_of_ascii c in
  if decide (97 <= n <= 122)%nat then ascii_of_nat (n - 32) else c.

Fixpoint upper (s : string) : string :=
  match s with
  | EmptyString => EmptyString
  | String c s' => String (upper_ascii c) (upper s')
  end.

Definition is_space (c : ascii) : bool :=
  let n := nat_of_ascii c in
  bool_decide (n = 32 \/ 9 <= n <= 13)%nat.

Fixpoint lstrip (s : string) : string :=
  match s with
  | EmptyString => EmptyString
  | String c s' => if is_space c then lstrip s' else s
  end.

Definition strip (s : string) : string :=
  String.rev (lstrip (String.rev (lstrip s))).

Inductive ScanResponse :=
  | Scan200 (analysis : SymbolAnalysis)
  | Scan404 (sym : string)
  | Scan500.

(** [scan_symbol(symbol)] *)
Definition scan_symbol (yf : Provider) (now : string) (sym : string) : IO ScanResponse :=
  try_except
    (let sym := upper sym in
     data ← get_options_data (yf sym);
     match data with
     | None => mret (Scan404 sym)
     | Some data =>
         analysis ← lift_option (analyze_options sym data now);
         mret (Scan200 analysis)
     end)
    (mret Scan500).

(** A JSON value sent as a threshold: a number, or anything else. *)
Inductive JsonValue :=
  | JNumber (q : Q)
  | JOther.

(** The JSON body of a batch request; a key that is absent is [None]. *)
Record ScanRequest := {
  symbols : list string;
  callVolThreshold : option JsonValue;
  ratioThreshold : option JsonValue
}.

(** One item of [results]. *)
Inductive ResultEntry :=
  | AnalysisEntry (analysis : SymbolAnalysis)
  | ErrorEntry (sym error : string) (is_flagged : bool).

(** ['error' in r] *)
Definition has_error (r : ResultEntry) : bool :=
  match r with
  | AnalysisEntry _ => false
  | ErrorEntry _ _ _ => true
  end.

(** [r.get('flagged', False)] *)
Definition get_flagged (r : ResultEntry) : bool :=
  match r with
  | AnalysisEntry a => default false (flagged a)
  | ErrorEntry _ _ f => f
  end.

(** [r['ratio']]: [KeyError] on an error entry. *)
Definition get_ratio (r : ResultEntry) : option Q :=
  match r with
  | AnalysisEntry a => Some (ratio a)
  | ErrorEntry _ _ _ => None
  end.

(** [x >= t] for a number [x]: [TypeError] when [t] is not a number. *)
Definition py_ge (x : Q) (t : JsonValue) : IO bool :=
  match t with
  | JNumber q => mret (Qle_bool q x)
  | JOther => raise
  end.

Definition set_flagged (a : SymbolAnalysis) (f : bool) : SymbolAnalysis :=
  {| symbol := symbol a; currentPrice := currentPrice a;
     callVolume := callVolume a; putVolume := putVolume a; ratio := ratio a;
     callOpenInterest := callOpenInterest a;
     putOpenInterest := putOpenInterest a;
     impliedVol := impliedVol a; avgPutIV := avgPutIV a;
     topCallStrikes := topCallStrikes a; topPutStrikes := topPutStrikes a;
     callVolumeByExpiration := callVolumeByExpiration a;
     putVolumeByExpiration := putVolumeByExpiration a;
     timestamp := timestamp a; flagged := Some f |}.

(** The body of the loop over the symbols (lines 216-246): the entry that is
    appended to [results]. *)
Definition scan_entry (yf : Provider) (call_vol_threshold ratio_threshold : JsonValue)
    (now : string) (sym : string) : IO ResultEntry :=
  let sym := strip (upper sym) in
  try_except
    (options_data ← get_options_data (yf sym);
     match options_data with
     | None => mret (ErrorEntry sym "Could not fetch data" false)
     | Some options_data =>
         analysis ← lift_option (analyze_options sym options_data now);
         enough_volume ← py_ge (inject_Z (callVolume analysis)) call_vol_threshold;
         is_flagged ← (if (enough_volume : bool) then py_ge (ratio analysis) ratio_threshold
                       else mret false);
         mret (AnalysisEntry (set_flagged analysis is_flagged))
     end)
    (mret (ErrorEntry sym "exception" false)).

(** [for symbol in symbols: ...] *)
Fixpoint scan_entries (yf : Provider) (call_vol_threshold ratio_threshold : JsonValue)
    (now : string) (syms : list string) (results : list ResultEntry)
    : IO (list ResultEntry) :=
  match syms with
  | [] => mret results
  | sym :: rest =>
      entry ← scan_entry yf call_vol_threshold ratio_threshold now sym;
      scan_entries yf call_vol_threshold ratio_threshold now rest (results ++ [entry])
  end.

Record BatchSummary := {
  totalScanned : nat;
  successfulScans : nat;
  flaggedCount : nat;
  avgRatio : Q;
  summary_timestamp : string
}.

(** [sum(xs)] on floats *)
Definition py_sum (xs : list Q) : Q := foldl Qplus 0%Q xs.

(** Lines 248-256. [None] stands for an exception. *)
Definition summarize (results : list ResultEntry) (now : string) : option BatchSummary :=
  let valid_results := filter (fun r => has_error r = false) results in
  let flagged_count :=
    foldl (fun n r => if get_flagged r then S n else n) 0%nat valid_results in
  avg_ratio ←
    (if Pandas.empty valid_results then Some 0%Q
     else
       ratios ← mapM get_ratio valid_results;
       q ← PyNum.truediv_float (py_sum ratios) (Z.of_nat (length valid_results));
       Some (PyNum.round q 2));
  Some {| totalScanned := length results;
          successfulScans := length valid_results;
          flaggedCount := flagged_count;
          avgRatio := avg_ratio;
          summary_timestamp := now |}.

Inductive BatchResponse :=
  | Batch200 (summary : BatchSummary) (results : list ResultEntry)
  | Batch400
  | Batch500.

(** The thresholds a request asks for: [data.get(key, default)]. *)
Definition call_vol_threshold_of (req : ScanRequest) : JsonValue :=
  default (JNumber 5000) (callVolThreshold req).

Definition ratio_threshold_of (req : ScanRequest) : JsonValue :=
  default (JNumber 2) (ratioThreshold req).

(** [scan_multiple()], on the parsed body of the request. *)
Definition scan_multiple (yf : Provider) (now : string) (req : ScanRequest)
    : IO BatchResponse :=
  try_except
    (let call_vol_threshold := call_vol_threshold_of req in
     let ratio_threshold := ratio_threshold_of req in
     if Pandas.empty (symbols req) then mret Batch400
     else
       results ← scan_entries yf call_vol_threshold ratio_threshold now (symbols req) [];
       summary ← lift_option (summarize results now);
       mret (Batch200 summary results))
    (mret Batch500).


(** ** The top-strikes endpoint *)

(** One record of [topCalls] / [topPuts]. *)
Record StrikeDetail := {
  sd_strike : Q;
  sd_lastPrice : Q;
  sd_volume : option Z;
  sd_openInterest : option Z;
  sd_impliedVolatility : option Q;
  sd_expiration : string
}.

(** [[['strike','lastPrice','volume','openInterest','impliedVolatility',
    'expiration']].to_dict('records')] *)
Definition to_detail_records (rows : list (nat * OptionRecord)) : list StrikeDetail :=
  (fun ir => {| sd_strike := strike ir.2; sd_lastPrice := lastPrice ir.2;
                sd_volume := volume ir.2;
                sd_openInterest := openInterest ir.2;
                sd_impliedVolatility := impliedVolatility ir.2;
                sd_expiration := expiration ir.2 |}) <$> rows.

(** The JSON body of a successful top-strikes answer. *)
Record TopStrikesBody := {
  tsb_symbol : string;
  tsb_currentPrice : Q;
  topCalls : list StrikeDetail;
  topPuts : list StrikeDetail;
  tsb_timestamp : string
}.

Inductive TopStrikesResponse :=
  | Top200 (body : TopStrikesBody)
  | Top404 (sym : string)
  | Top500.

(** [top_strikes(symbol)] *)
Definition top_strikes (yf : Provider) (now : string) (sym : string)
    : IO TopStrikesResponse :=
  try_except
    (let sym := upper sym in
     data ← get_options_data (yf sym);
     match data with
     | None => mret (Top404 sym)
     | Some data =>
         let calls_df := calls data in
         let puts_df := puts data in
         let top_calls := to_detail_records (Pandas.nlargest_volume 10 calls_df) in
         let top_puts := to_detail_records (Pandas.nlargest_volume 10 puts_df) in
         mret (Top200 {| tsb_symbol := sym;
                         tsb_currentPrice := current_price data;
                         topCalls := top_calls;
                         topPuts := top_puts;
                         tsb_timestamp := now |})
     end)
    (mret Top500).

(** ** Vocabulary of the specification *)

(** [r] is [q] rounded to [ndigits] decimal places: a multiple of
    [10^-ndigits] at distance at most half a unit of the last place. *)
Definition rounded_to (ndigits : nat) (q r : Q) : Prop :=
  (exists k : Z, r == inject_Z k / inject_Z (10 ^ Z.of_nat ndigits))%Q /\
  (Qabs (r - q) <= 1 / inject_Z (2 * 10 ^ Z.of_nat ndigits))%Q.



(** The arithmetic mean of a non-empty list of numbers. *)
Definition arithmetic_mean (xs : list Q) : Q :=
  (foldr Qplus 0 xs / inject_Z (Z.of_nat (length xs)))%Q.




(** The frame order of labelled rows. *)
Definition label_lt (ir jr : nat * OptionRecord) : Prop := (ir.1 < jr.1)%nat.

(** The order of the most active strikes on labelled rows: larger volume
    first, the earlier row first among rows of equal volume; a row whose
    volume is missing comes after every row whose volume is present. *)
Definition precedes (ir jr : nat * OptionRecord) : Prop :=
  match volume ir.2, volume jr.2 with
  | Some v, Some w => (w < v)%Z \/ (v = w /\ (ir.1 < jr.1)%nat)
  | Some _, None => True
  | None, Some _ => False
  | None, None => (ir.1 < jr.1)%nat
  end.

(** A top-strikes record carries the five fields of its row. *)
Definition projection_of (r : OptionRecord) (t : TopStrike) : Prop :=
  ts_strike t = strike r /\ ts_volume t = volume r /\
  ts_openInterest t = openInterest r /\ ts_lastPrice t = lastPrice r /\
  ts_expiration t = expiration r.

(** [top] is the list of the [n] most active strikes of [df]. *)
Definition most_active (n : nat) (df : DataFrame) (top : list TopStrike) : Prop :=
  exists rows : list (nat * OptionRecord),
    Forall2 (fun ir t => projection_of ir.2 t) rows top /\
    length top = Nat.min n (length df) /\
    Forall (fun ir => df !! ir.1 = Some ir.2) rows /\
    StronglySorted precedes rows /\
    (forall jr, df !! jr.1 = Some jr.2 -> jr ∉ rows ->
                Forall (fun ir => precedes ir jr) rows).

(** A threshold condition [x >= t] holds. *)
Definition meets (x : Q) (t : JsonValue) : Prop :=
  match t with
  | JNumber q => (q <= x)%Q
  | JOther => False
  end.

(** The analyses of a result list: its entries without an error marker. *)
Definition successes (results : list ResultEntry) : list SymbolAnalysis :=
  omap (fun r => match r with
                 | AnalysisEntry a => Some a
                 | ErrorEntry _ _ _ => None
                 end) results.

(** The flagging rule: the entry carries a flag, which is true exactly when
    both threshold conditions hold. *)
Definition flag_rule (call_vol_threshold ratio_threshold : JsonValue)
    (a : SymbolAnalysis) : Prop :=
  exists b, flagged a = Some b /\
    (b = true <->
     meets (inject_Z (callVolume a)) call_vol_threshold /\
     meets (ratio a) ratio_threshold).

(** The flagging rule on an item of [results]; an error entry is never
    flagged. *)
Definition entry_flag_rule (call_vol_threshold ratio_threshold : JsonValue)
    (r : ResultEntry) : Prop :=
  match r with
  | AnalysisEntry a => flag_rule call_vol_threshold ratio_threshold a
  | ErrorEntry _ _ f => f = false
  end.

(** [s] summarises [results]: the counts, and the mean ratio of the
    successful entries rounded to 2 places, 0 when there is none. *)
Definition summary_of (results : list ResultEntry) (s : BatchSummary) : Prop :=
  totalScanned s = length results /\
  successfulScans s = length (successes results) /\
  flaggedCount s = length (filter (fun a => flagged a = Some true) (successes results)) /\
  (successes results = [] -> avgRatio s = 0%Q) /\
  (successes results <> [] ->
   avgRatio s = PyNum.round (arithmetic_mean (ratio <$> successes results)) 2 /\
   rounded_to 2 (arithmetic_mean (ratio <$> successes results)) (avgRatio s)).

(** Neither price source of the ticker gives a price: the daily close is
    missing (the call fails or the frame is empty) and so is the quote (the
    call fails, or neither quote field holds a number). *)
Definition quote_missing (d : gmap string (option Q)) (key : string) : Prop :=
  d !! key = None \/ d !! key = Some None.

Definition price_unavailable (ticker : Ticker) : Prop :=
  (history ticker = Raised \/ history ticker = Returned []) /\
  (info ticker = Raised \/
   exists d, info ticker = Returned d /\
             quote_missing d "currentPrice" /\
             quote_missing d "regularMarketPrice").

(** Some near expiration of the ticker has a chain with calls and puts. *)
Definition chain_available (ticker : Ticker) : Prop :=
  exists expirations exp_date calls puts,
    options ticker = Returned expirations /\
    exp_date ∈ near_expirations expirations /\
    option_chain ticker exp_date = Returned (calls, puts) /\
    calls <> [] /\ puts <> [].

(** The two tickers answer alike about expirations and chains. *)
Definition same_chains (t1 t2 : Ticker) : Prop :=
  options t1 = options t2 /\ forall e, option_chain t1 e = option_chain t2 e.

(** What the loop keeps true of the two lists of frames. *)
Definition paired_frames (acc : list DataFrame * list DataFrame) : Prop :=
  Forall (fun df => df <> []) acc.1 /\ Forall (fun df => df <> []) acc.2 /\
  length acc.1 = length acc.2.

(** ** Vocabulary of the further properties *)

(** The symbol an item of [results] is filed under. *)
Definition entry_symbol (r : ResultEntry) : string :=
  match r with
  | AnalysisEntry a => symbol a
  | ErrorEntry sym _ _ => sym
  end.

(** [symbol.upper().strip()] *)
Definition normalize (sym : string) : string := strip (upper sym).

(** What the loop keeps of one expiration: the two frames of its chain,
    tagged, when the chain can be fetched and has calls and puts. *)
Definition kept_chain (ticker : Ticker) (exp_date : string)
    : option (DataFrame * DataFrame) :=
  match option_chain ticker exp_date with
  | Raised => None
  | Returned (c, p) =>
      if Pandas.empty c || Pandas.empty p then None
      else Some (Pandas.set_expiration exp_date c, Pandas.set_expiration exp_date p)
  end.

(** [rows] are the [n] most active labelled rows of [df], in rank order. *)
Definition top_rows (n : nat) (df : DataFrame) (rows : list (nat * OptionRecord)) : Prop :=
  length rows = Nat.min n (length df) /\
  Forall (fun ir => df !! ir.1 = Some ir.2) rows /\
  StronglySorted precedes rows /\
  (forall jr, df !! jr.1 = Some jr.2 -> jr ∉ rows ->
              Forall (fun ir => precedes ir jr) rows).

(** A detailed record carries the six fields of its row. *)
Definition detail_of (r : OptionRecord) (t : StrikeDetail) : Prop :=
  sd_strike t = strike r /\ sd_lastPrice t = lastPrice r /\
  sd_volume t = volume r /\ sd_openInterest t = openInterest r /\
  sd_impliedVolatility t = impliedVolatility r /\
  sd_expiration t = expiration r.

(** A detailed record without its implied volatility. *)
Definition narrow (t : StrikeDetail) : TopStrike :=
  {| ts_strike := sd_strike t; ts_volume := sd_volume t;
     ts_openInterest := sd_openInterest t; ts_lastPrice := sd_lastPrice t;
     ts_expiration := sd_expiration t |}.


(** The expirations whose chain a run asked for, in the order of the calls. *)
Definition chain_fetches (tr : list Event) : list string :=
  omap (fun ev => match ev with
                  | CallOptionChain e => Some e
                  | _ => None
                  end) tr.

(** The request with another list of symbols. *)
Definition with_symbols (req : ScanRequest) (syms : list string) : ScanRequest :=
  {| symbols := syms; callVolThreshold := callVolThreshold req;
     ratioThreshold := ratioThreshold req |}.

(** The provider calls of retrieving each symbol of a list in turn. *)
Definition retrieval_trace (yf : Provider) (syms : list string) : list Event :=
  mjoin ((fun sym => trace (get_options_data (yf (normalize sym)))) <$> syms).

(** ** Sample tickers *)

Definition sample_row (v : Z) : OptionRecord :=
  {| strike := 100; lastPrice := 1; volume := Some v; openInterest := None;
     impliedVolatility := None; expiration := "" |}.

(** No price, one expiration with calls and puts. *)
Definition unpriced_ticker : Ticker :=
  {| history := Raised; info := Raised;
     options := Returned ["2024-01-19"];
     option_chain := fun _ => Returned ([sample_row 7], [sample_row 3]) |}.

(** The same chains, with a daily close. *)
Definition priced_ticker : Ticker :=
  {| history := Returned [10%Q]; info := Raised;
     options := Returned ["2024-01-19"];
     option_chain := fun _ => Returned ([sample_row 7], [sample_row 3]) |}.

(** One expiration whose chain has no puts. *)
Definition one_sided_ticker : Ticker :=
  {| history := Returned [10%Q]; info := Raised;
     options := Returned ["2024-01-19"];
     option_chain := fun _ => Returned ([sample_row 7], []) |}.

(** No expiration at all. *)
Definition unlisted_ticker : Ticker :=
  {| history := Returned [10%Q]; info := Raised;
     options := Returned [];
     option_chain := fun _ => Raised |}.

(** A priced ticker with 6000 calls and 2400 puts traded. *)
Definition active_ticker : Ticker :=
  {| history := Returned [10%Q]; info := Raised;
     options := Returned ["2024-01-19"];
     option_chain := fun _ => Returned ([sample_row 6000], [sample_row 2400]) |}.

(** A batch request that leaves both thresholds out. *)
Definition default_request : ScanRequest :=
  {| symbols := ["spy"]; callVolThreshold := None; ratioThreshold := None |}.

(** A snapshot with three calls, two of equal volume and one without
    implied volatility, and one put without implied volatility. *)
Definition sample_snapshot : ChainSnapshot :=
  {| calls :=
       [ {| strike := 100; lastPrice := 1; volume := Some 5%Z;
            openInterest := Some 10%Z; impliedVolatility := Some (1 # 2)%Q;
            expiration := "2024-01-19" |};
         {| strike := 105; lastPrice := 1; volume := Some 9%Z;
            openInterest := None; impliedVolatility := None;
            expiration := "2024-01-19" |};
         {| strike := 110; lastPrice := 1; volume := Some 5%Z;
            openInterest := Some 4%Z; impliedVolatility := Some (1 # 4)%Q;
            expiration := "2024-01-26" |} ];
     puts :=
       [ {| strike := 100; lastPrice := 1; volume := Some 4%Z;
            openInterest := None; impliedVolatility := None;
            expiration := "2024-01-19" |} ];
     current_price := 0 |}.

(** Six weekly expirations: the chain of the second cannot be fetched and
    that of the third has no puts. The daily close is missing, and the quote
    holds a null [currentPrice] beside a [regularMarketPrice]. *)
Definition weekly_ticker : Ticker :=
  {| history := Returned [];
     info := Returned (<["currentPrice" := None]>
                         (<["regularMarketPrice" := Some 12%Q]> ∅));
     options := Returned ["w1"; "w2"; "w3"; "w4"; "w5"; "w6"];
     option_chain := fun e =>
       if decide (e = "w2") then Raised
       else if decide (e = "w3") then Returned ([sample_row 1], [])
       else Returned ([sample_row 7], [sample_row 3]) |}.

(** The daily close cannot be fetched although the quote has a price. *)
Definition quoted_ticker : Ticker :=
  {| history := Raised;
     info := Returned (<["currentPrice" := Some 12%Q]> ∅);
     options := Returned ["2024-01-19"];
     option_chain := fun _ => Returned ([sample_row 7], [sample_row 3]) |}.

(** The snapshot of a ticker with one expiration, 7 calls and 3 puts
    traded. *)
Definition one_week_snapshot (price : Q) : ChainSnapshot :=
  {| calls := Pandas.concat [Pandas.set_expiration "2024-01-19" [sample_row 7]];
     puts := Pandas.concat [Pandas.set_expiration "2024-01-19" [sample_row 3]];
     current_price := price |}.



(** ** Rounding *)

Lemma round_half_even_near q :
  (inject_Z (PyNum.round_half_even q) - q <= 1 # 2)%Q /\
  (q - inject_Z (PyNum.round_half_even q) <= 1 # 2)%Q.
Proof.
  unfold PyNum.round_half_even.
  pose proof (Qfloor_le q) as Hlo. pose proof (Qlt_floor q) as Hhi.
  rewrite inject_Z_plus in Hhi.
  destruct (Qcompare_spec (q - inject_Z (Qfloor q)) (1 # 2)) as [He|Hl|Hg].
  - destruct (Z.even (Qfloor q)); rewrite ?inject_Z_plus;
      change (inject_Z 1) with 1%Q in *; lra.
  - lra.
  - rewrite inject_Z_plus. change (inject_Z 1) with 1%Q in *. lra.
Qed.


Lemma round_half_even_Qeq q q' :
  q == q' -> PyNum.round_half_even q = PyNum.round_half_even q'.
Proof.
  intros Heq. unfold PyNum.round_half_even.
  rewrite (Qfloor_comp _ _ Heq).
  assert (q - inject_Z (Qfloor q') == q' - inject_Z (Qfloor q'))%Q as ->
    by (by rewrite Heq).
  done.
Qed.

Lemma pow10_pos n : (0 < PyNum.pow10 n)%Z.
Proof. unfold PyNum.pow10. apply Z.pow_pos_nonneg; lia. Qed.

Lemma pow10_pos_Q n : (0 < inject_Z (PyNum.pow10 n))%Q.
Proof. change 0%Q with (inject_Z 0). rewrite <- Zlt_Qlt. apply pow10_pos. Qed.


Lemma round_Qeq q q' n : q == q' -> PyNum.round q n = PyNum.round q' n.
Proof.
  intros Heq. unfold PyNum.round.
  rewrite (round_half_even_Qeq (q * _) (q' * inject_Z (PyNum.pow10 n))); [done|].
  by rewrite Heq.
Qed.

Lemma round_rounded q n : rounded_to n q (PyNum.round q n).
Proof.
  unfold rounded_to, PyNum.round. fold (PyNum.pow10 n).
  pose proof (pow10_pos_Q n) as HPq.
  set (P := inject_Z (PyNum.pow10 n)) in *.
  split; [by eexists|].
  destruct (round_half_even_near (q * P)) as [H1 H2].
  set (k := inject_Z (PyNum.round_half_even (q * P))) in *.
  assert (inject_Z (2 * PyNum.pow10 n) == 2 * P)%Q as ->.
  { unfold P. by rewrite inject_Z_mult. }
  assert (P * / P == 1)%Q as Hi by (apply Qmult_inv_r; lra).
  assert (0 < / P)%Q as Hipos by (by apply Qinv_lt_0_compat).
  assert (1 / (2 * P) == (1 # 2) * / P)%Q as -> by (field; lra).
  unfold Qdiv. set (i := (/ P)%Q) in *.
  assert (k * i - q == (k - q * P) * i)%Q as ->.
  { transitivity (k * i - q * (P * i))%Q; [rewrite Hi|]; ring. }
  apply Qabs_Qle_condition. split.
  - setoid_replace (- ((1 # 2) * i))%Q with ((- (1 # 2)) * i)%Q
      using relation Qeq by ring.
    apply Qmult_le_compat_r; lra.
  - apply Qmult_le_compat_r; lra.
Qed.

(** ** Sums of columns *)







(** ** The analysis never raises *)

Lemma call_put_ratio_defined (c p : Z) :
  exists q, call_put_ratio c p = Some q /\
    ((p > 0)%Z -> q = PyNum.round (inject_Z c / inject_Z p) 2) /\
    (~ (p > 0)%Z -> q = 0%Q).
Proof.
  unfold call_put_ratio, PyNum.truediv.
  destruct (decide (p > 0)%Z) as [Hp|Hp].
  - destruct (decide (p = 0%Z)) as [->|_]; [lia|].
    eexists. split; [done|]. by split.
  - eexists. split; [done|]. by split.
Qed.





(** ** Means of implied volatility *)

Lemma foldl_Qplus (a : Q) (l : list Q) :
  (foldl Qplus a l == a + foldr Qplus 0 l)%Q.
Proof.
  revert a. induction l as [|x l IH]; intros a; simpl; [ring|].
  rewrite IH. ring.
Qed.






(** ** Volume by expiration *)










(** ** The most active strikes *)

Section StableSortFacts.
Context {A : Type} (key : A -> Z).

Lemma insert_desc_perm (x : A) (l : list A) :
  Pandas.insert_desc key x l ≡ₚ x :: l.
Proof.
  induction l as [|y l IH]; simpl; [done|].
  destruct (decide (key x < key y)%Z); [|done].
  rewrite IH. apply Permutation_swap.
Qed.

Lemma sort_desc_perm (l : list A) : Pandas.sort_desc key l ≡ₚ l.
Proof.
  induction l as [|x l IH]; simpl; [done|].
  by rewrite insert_desc_perm, IH.
Qed.
End StableSortFacts.

Lemma precedes_has_volume (ir jr : nat * OptionRecord) :
  Pandas.has_volume ir -> Pandas.has_volume jr ->
  precedes ir jr <->
  (Pandas.volume_key jr < Pandas.volume_key ir)%Z \/
  (Pandas.volume_key ir = Pandas.volume_key jr /\ label_lt ir jr).
Proof.
  unfold Pandas.has_volume, precedes, Pandas.volume_key, label_lt.
  intros [v ->] [w ->]. simpl. done.
Qed.

Lemma insert_desc_sorted (x : nat * OptionRecord) (s : list (nat * OptionRecord)) :
  Pandas.has_volume x -> Forall Pandas.has_volume s ->
  Forall (label_lt x) s ->
  StronglySorted precedes s ->
  StronglySorted precedes (Pandas.insert_desc Pandas.volume_key x s).
Proof.
  intros Hx Hs Hlt Hsorted. induction Hsorted as [|y s Hsorted IH Hy]; simpl.
  - repeat constructor.
  - apply Forall_cons in Hs as [Hyv Hs]. apply Forall_cons in Hlt as [Hxy Hlt].
    destruct (decide (Pandas.volume_key x < Pandas.volume_key y)%Z) as [Hk|Hk].
    + constructor; [by apply IH|].
      rewrite insert_desc_perm. constructor; [|done].
      apply precedes_has_volume; auto.
    + constructor; [by constructor|].
      constructor; [apply precedes_has_volume; [done..|]; unfold label_lt in *; lia|].
      rewrite Forall_forall in Hy, Hs, Hlt |- *. intros z Hz.
      specialize (Hy z Hz). specialize (Hs z Hz). specialize (Hlt z Hz).
      apply precedes_has_volume in Hy; [|done..].
      apply precedes_has_volume; [done..|]. unfold label_lt in *. lia.
Qed.

Lemma sort_desc_sorted (l : list (nat * OptionRecord)) :
  Forall Pandas.has_volume l -> StronglySorted label_lt l ->
  StronglySorted precedes (Pandas.sort_desc Pandas.volume_key l).
Proof.
  intros Hv Hl. induction Hl as [|x l Hl IH Hx]; simpl; [constructor|].
  apply Forall_cons in Hv as [Hxv Hv].
  apply insert_desc_sorted; [done| | |by apply IH].
  - by rewrite sort_desc_perm.
  - by rewrite sort_desc_perm.
Qed.

Lemma imap_pair_sorted (k : nat) (df : DataFrame) :
  StronglySorted label_lt (imap (fun i => pair (k + i)%nat) df).
Proof.
  revert k. induction df as [|r df IH]; intros k; simpl; [constructor|].
  constructor.
  - rewrite (imap_ext _ (fun i => pair (S k + i)%nat)); [apply IH|].
    intros i x _. simpl. f_equal. lia.
  - apply Forall_forall. intros jr Hjr.
    apply elem_of_lookup_imap_1 in Hjr as (i & y & -> & _).
    unfold label_lt. simpl. lia.
Qed.

Lemma labelled_rows_sorted (df : DataFrame) : StronglySorted label_lt (imap pair df).
Proof.
  rewrite (imap_ext _ (fun i => pair (0 + i)%nat)); [apply imap_pair_sorted|done].
Qed.

Lemma StronglySorted_filter {A} (R : relation A) (P : A -> Prop)
    `{!forall x, Decision (P x)} (l : list A) :
  StronglySorted R l -> StronglySorted R (filter P l).
Proof.
  induction 1 as [|x l Hl IH Hx]; [constructor|].
  rewrite filter_cons. destruct (decide (P x)); [|done].
  constructor; [done|].
  rewrite Forall_forall in Hx |- *. intros y Hy.
  apply list_elem_of_filter in Hy as [_ Hy]. by apply Hx.
Qed.

Lemma StronglySorted_take {A} (R : relation A) (n : nat) (l : list A) :
  StronglySorted R l -> StronglySorted R (take n l).
Proof.
  intros Hl. rewrite <- (take_drop n l) in Hl.
  by apply StronglySorted_app_1_l in Hl.
Qed.

(** The rows ranked by [nlargest], before truncation. *)
Lemma ranked_rows_perm (df : DataFrame) :
  Pandas.sort_desc Pandas.volume_key (filter Pandas.has_volume (imap pair df))
  ++ filter (fun ir => ¬ Pandas.has_volume ir) (imap pair df)
  ≡ₚ imap pair df.
Proof. rewrite sort_desc_perm. apply filter_app_complement. Qed.

Lemma label_lt_precedes_missing (l : list (nat * OptionRecord)) :
  Forall (fun ir => ¬ Pandas.has_volume ir) l ->
  StronglySorted label_lt l -> StronglySorted precedes l.
Proof.
  intros Hn Hl. induction Hl as [|x l Hl IH Hx]; [constructor|].
  apply Forall_cons in Hn as [Hxn Hn]. constructor; [by apply IH|].
  rewrite Forall_forall in Hx, Hn |- *. intros y Hy.
  specialize (Hx y Hy). specialize (Hn y Hy).
  unfold precedes, Pandas.has_volume, label_lt in *.
  destruct (volume x.2); [by destruct Hxn|].
  destruct (volume y.2); [by destruct Hn|]. done.
Qed.

Lemma ranked_rows_sorted (df : DataFrame) :
  StronglySorted precedes
    (Pandas.sort_desc Pandas.volume_key (filter Pandas.has_volume (imap pair df))
     ++ filter (fun ir => ¬ Pandas.has_volume ir) (imap pair df)).
Proof.
  apply StronglySorted_app_2.
  - intros ir jr Hir Hjr. rewrite sort_desc_perm in Hir.
    apply list_elem_of_filter in Hir as [[v Hv] _].
    apply list_elem_of_filter in Hjr as [Hn _].
    unfold precedes. rewrite Hv.
    destruct (volume jr.2) eqn:E; [|done]. destruct Hn. by eexists.
  - apply sort_desc_sorted.
    + apply Forall_forall. intros ir Hir. by apply list_elem_of_filter in Hir as [? _].
    + apply StronglySorted_filter, labelled_rows_sorted.
  - apply label_lt_precedes_missing.
    + apply Forall_forall. intros ir Hir. by apply list_elem_of_filter in Hir as [? _].
    + apply StronglySorted_filter, labelled_rows_sorted.
Qed.

Lemma elem_of_labelled_rows (df : DataFrame) (ir : nat * OptionRecord) :
  ir ∈ imap pair df <-> df !! ir.1 = Some ir.2.
Proof.
  rewrite elem_of_lookup_imap. split.
  - by intros (i & r & -> & Hr).
  - destruct ir as [i r]. intros Hr. by exists i, r.
Qed.

Lemma nlargest_most_active (n : nat) (df : DataFrame) :
  most_active n df (Pandas.to_records (Pandas.nlargest_volume n df)).
Proof.
  unfold Pandas.nlargest_volume, Pandas.to_records.
  set (ranked := Pandas.sort_desc Pandas.volume_key _ ++ _).
  pose proof (ranked_rows_perm df) as Hperm. fold ranked in Hperm.
  pose proof (ranked_rows_sorted df) as Hsorted. fold ranked in Hsorted.
  exists (take n ranked). repeat split.
  - apply Forall2_fmap_r, Forall_Forall2_diag, Forall_forall.
    intros ir _. by repeat split.
  - rewrite length_fmap, length_take. f_equal.
    by rewrite Hperm, length_imap.
  - apply Forall_take, Forall_forall. intros ir Hir.
    apply elem_of_labelled_rows. by rewrite <- Hperm.
  - by apply StronglySorted_take.
  - intros jr Hjr Hout. apply elem_of_labelled_rows in Hjr.
    rewrite <- Hperm, <- (take_drop n ranked) in Hjr.
    apply elem_of_app in Hjr as [Hjr|Hjr]; [done|].
    apply Forall_forall. intros ir Hir.
    rewrite <- (take_drop n ranked) in Hsorted.
    by apply (StronglySorted_app_1_elem_of _ _ _ _ _ Hsorted).
Qed.

Example nlargest_keeps_first_among_equals :
  (fst <$> Pandas.nlargest_volume 3
     [ {| strike := 100; lastPrice := 1; volume := Some 5%Z; openInterest := None;
          impliedVolatility := None; expiration := "2024-01-19" |};
       {| strike := 105; lastPrice := 1; volume := None; openInterest := None;
          impliedVolatility := None; expiration := "2024-01-19" |};
       {| strike := 110; lastPrice := 1; volume := Some 7%Z; openInterest := None;
          impliedVolatility := None; expiration := "2024-01-19" |};
       {| strike := 115; lastPrice := 1; volume := Some 5%Z; openInterest := None;
          impliedVolatility := None; expiration := "2024-01-26" |} ])
  = [2; 0; 3]%nat.
Proof. reflexivity. Qed.

(** C5: [topCallStrikes] has [min(5, |calls|)] entries, taken from the calls
    in descending order of volume, records of equal volume keeping their
    frame order (a record whose volume is missing ranks after those whose
    volume is present); no record left out ranks before one that is kept;
    each entry carries the fields strike, volume, openInterest, lastPrice
    and expiration of its record. The same holds of [topPutStrikes] and the
    puts. *)
Theorem top_strikes_are_most_active (sym : string) (data : ChainSnapshot) (now : string) :
  exists a, analyze_options sym data now = Some a /\
    most_active 5 (calls data) (topCallStrikes a) /\
    most_active 5 (puts data) (topPutStrikes a).
Proof.
  unfold analyze_options, py_int.
  destruct (call_put_ratio_defined
              (Pandas.sum (Pandas.fillna 0%Z (volume <$> calls data)))
              (Pandas.sum (Pandas.fillna 0%Z (volume <$> puts data))))
    as (q & -> & _).
  eexists. split; [done|]. simpl. split; apply nlargest_most_active.
Qed.

Lemma top_strikes_are_most_active_witness :
  exists a, analyze_options "SPY" sample_snapshot "now" = Some a /\
    ts_strike <$> topCallStrikes a = [105; 100; 110]%Q /\
    most_active 5 (calls sample_snapshot) (topCallStrikes a).
Proof.
  destruct (top_strikes_are_most_active "SPY" sample_snapshot "now")
    as (a & Ha & Hcalls & _).
  exists a. split; [exact Ha|]. split; [|exact Hcalls].
  injection Ha as <-. reflexivity.
Defined.


(** ** Running the retriever *)

Lemma result_bind {A B} (m : IO A) (f : A -> IO B) (a : A) :
  result m = Returned a -> result (m ≫= f) = result (f a).
Proof. intros H. unfold mbind, IO_bind. by rewrite H. Qed.

Lemma trace_bind {A B} (m : IO A) (f : A -> IO B) (a : A) :
  result m = Returned a -> trace (m ≫= f) = trace m ++ trace (f a).
Proof. intros H. unfold mbind, IO_bind. by rewrite H. Qed.

Lemma result_bind_raised {A B} (m : IO A) (f : A -> IO B) :
  result m = Raised -> result (m ≫= f) = Raised.
Proof. intros H. unfold mbind, IO_bind. by rewrite H. Qed.

Lemma trace_bind_raised {A B} (m : IO A) (f : A -> IO B) :
  result m = Raised -> trace (m ≫= f) = trace m.
Proof. intros H. unfold mbind, IO_bind. by rewrite H. Qed.

Ltac run_io :=
  unfold try_except, provider_call, py_float, lift_option, raise,
    mbind, IO_bind, mret, IO_ret; simpl.

(** The price step always returns, and asks for no chain. *)
Lemma get_price_returns (ticker : Ticker) :
  exists p, result (get_price ticker) = Returned p /\
    (trace (get_price ticker) = [CallHistory] \/
     trace (get_price ticker) = [CallHistory; CallInfo]).
Proof.
  unfold get_price. run_io.
  destruct (history ticker) as [|closes]; simpl; [eauto|].
  destruct closes as [|c closes]; simpl.
  - destruct (info ticker) as [|d]; simpl; [eauto|].
    destruct (dict_get d _ _); simpl; eauto.
  - destruct (last (c :: closes)); simpl; eauto.
Qed.

Lemma get_price_unavailable (ticker : Ticker) :
  price_unavailable ticker -> result (get_price ticker) = Returned 0%Q.
Proof.
  intros [Hh Hi]. unfold get_price. run_io.
  destruct Hh as [-> | ->]; simpl; [done|].
  destruct Hi as [-> | (d & -> & Hc & Hr)]; simpl; [done|].
  unfold dict_get.
  destruct Hc as [-> | ->]; simpl; [|done].
  destruct Hr as [-> | ->]; simpl; done.
Qed.

(** One expiration either leaves the frames as they are or appends one
    non-empty frame on each side. *)
Lemma fetch_expiration_returns (ticker : Ticker) acc (exp_date : string) :
  exists acc', result (fetch_expiration ticker acc exp_date) = Returned acc' /\
    trace (fetch_expiration ticker acc exp_date) = [CallOptionChain exp_date] /\
    (acc' = acc \/
     exists calls puts, option_chain ticker exp_date = Returned (calls, puts) /\
       calls <> [] /\ puts <> [] /\
       acc' = (acc.1 ++ [Pandas.set_expiration exp_date calls],
               acc.2 ++ [Pandas.set_expiration exp_date puts])).
Proof.
  unfold fetch_expiration. run_io.
  destruct (option_chain ticker exp_date) as [|[c p]]; simpl; [eauto|].
  destruct c as [|r c]; simpl; [eauto|].
  destruct p as [|r' p]; simpl; [eauto|].
  eexists. split; [done|]. split; [done|]. right. by exists (r :: c), (r' :: p).
Qed.

Lemma fetch_expiration_good (ticker : Ticker) acc (exp_date : string) calls puts :
  option_chain ticker exp_date = Returned (calls, puts) ->
  calls <> [] -> puts <> [] ->
  result (fetch_expiration ticker acc exp_date)
  = Returned (acc.1 ++ [Pandas.set_expiration exp_date calls],
              acc.2 ++ [Pandas.set_expiration exp_date puts]).
Proof.
  intros Hc Hcalls Hputs. unfold fetch_expiration. run_io. rewrite Hc. simpl.
  destruct calls; [done|]. destruct puts; [done|]. done.
Qed.

Lemma set_expiration_nonempty (exp_date : string) (df : DataFrame) :
  df <> [] -> Pandas.set_expiration exp_date df <> [].
Proof. by destruct df. Qed.

Lemma fetch_expirations_returns (ticker : Ticker) (exps : list string) acc :
  exists acc', result (fetch_expirations ticker exps acc) = Returned acc' /\
    trace (fetch_expirations ticker exps acc) = CallOptionChain <$> exps /\
    (paired_frames acc -> paired_frames acc') /\
    (length acc.1 <= length acc'.1)%nat /\
    ((exists exp_date calls puts, exp_date ∈ exps /\
        option_chain ticker exp_date = Returned (calls, puts) /\
        calls <> [] /\ puts <> []) -> acc'.1 <> []).
Proof.
  revert acc. induction exps as [|e exps IH]; intros acc; simpl.
  - exists acc. do 4 (split; [done|]).
    intros (? & ? & ? & Hin & _). by apply elem_of_nil in Hin.
  - destruct (fetch_expiration_returns ticker acc e) as (acc1 & Hres & Htr & Hacc1).
    destruct (IH acc1) as (acc' & Hres' & Htr' & Hinv & Hlen & Hgood).
    exists acc'. rewrite (result_bind _ _ _ Hres), (trace_bind _ _ _ Hres), Htr, Htr'.
    split; [done|]. split; [done|].
    assert (length acc.1 <= length acc1.1)%nat as Hlen1.
    { destruct Hacc1 as [->|(c & p & _ & _ & _ & ->)]; simpl; [done|].
      rewrite length_app. lia. }
    split; [|split].
    + intros Hp. apply Hinv.
      destruct Hacc1 as [->|(c & p & _ & Hc & Hp' & ->)]; [done|].
      destruct Hp as (H1 & H2 & H3). repeat split; simpl.
      * apply Forall_app. split; [done|]. repeat constructor. by apply set_expiration_nonempty.
      * apply Forall_app. split; [done|]. repeat constructor. by apply set_expiration_nonempty.
      * rewrite !length_app. simpl. lia.
    + lia.
    + intros (e' & c & p & He' & Hc & Hcn & Hpn).
      apply elem_of_cons in He' as [->|He'].
      * rewrite (fetch_expiration_good _ _ _ _ _ Hc Hcn Hpn) in Hres.
        injection Hres as <-. simpl in Hlen. rewrite length_app in Hlen. simpl in Hlen.
        destruct (acc'.1); [simpl in Hlen; lia|done].
      * apply Hgood. eauto 10.
Qed.

Lemma get_options_data_no_expirations (ticker : Ticker) :
  options ticker = Raised \/ options ticker = Returned [] ->
  result (get_options_data ticker) = Returned None /\
  trace (get_options_data ticker) = trace (get_price ticker) ++ [CallOptions].
Proof.
  intros Hopt. destruct (get_price_returns ticker) as (p & Hp & _).
  unfold get_options_data.
  destruct Hopt as [Ho | Ho]; run_io; rewrite Hp, Ho; simpl;
    rewrite ?Hp; simpl; by rewrite ?app_nil_r.
Qed.

Lemma get_options_data_expirations (ticker : Ticker) (e : string) (exps : list string) :
  options ticker = Returned (e :: exps) ->
  exists p all,
    result (get_price ticker) = Returned p /\
    result (fetch_expirations ticker (near_expirations (e :: exps)) ([], []))
    = Returned all /\
    paired_frames all /\
    result (get_options_data ticker)
    = Returned (if Pandas.empty all.1 || Pandas.empty all.2 then None
                else Some {| calls := Pandas.concat all.1;
                             puts := Pandas.concat all.2;
                             current_price := p |}).
Proof.
  intros Hopt. destruct (get_price_returns ticker) as (p & Hp & _).
  destruct (fetch_expirations_returns ticker (near_expirations (e :: exps)) ([], []))
    as (all & Hall & _ & Hinv & _).
  exists p, all. split; [done|]. split; [done|].
  split; [apply Hinv; by repeat split|].
  unfold get_options_data, try_except, provider_call, mbind, IO_bind, mret, IO_ret.
  cbn [result trace]. rewrite Hp. cbn [result trace]. rewrite Hopt.
  cbn [result trace Pandas.empty]. rewrite Hall. cbn [result trace].
  destruct (Pandas.empty all.1 || Pandas.empty all.2); done.
Qed.

Lemma concat_nonempty (frames : list DataFrame) :
  frames <> [] -> Forall (fun df => df <> []) frames -> Pandas.concat frames <> [].
Proof.
  intros Hne Hall. destruct Hall as [|df frames Hdf _]; [done|].
  unfold Pandas.concat. simpl. by destruct df.
Qed.

Lemma paired_frames_empty_iff (all : list DataFrame * list DataFrame) :
  paired_frames all -> all.1 = [] <-> all.2 = [].
Proof.
  intros (_ & _ & Hlen). destruct (all.1), (all.2); simpl in Hlen; done.
Qed.

(** C6: a snapshot that the retriever returns has calls and puts, both
    non-empty; and when, after the near expirations have been attempted,
    the calls collected or the puts collected are empty, the retriever
    returns [None]. *)
Theorem present_snapshot_has_both_sides (ticker : Ticker) :
  (forall snap, result (get_options_data ticker) = Returned (Some snap) ->
     calls snap <> [] /\ puts snap <> []) /\
  (forall expirations all,
     options ticker = Returned expirations ->
     result (fetch_expirations ticker (near_expirations expirations) ([], []))
     = Returned all ->
     Pandas.concat all.1 = [] \/ Pandas.concat all.2 = [] ->
     result (get_options_data ticker) = Returned None).
Proof.
  split.
  - intros snap Hsnap.
    destruct (options ticker) as [|[|e exps]] eqn:Hopt.
    + destruct (get_options_data_no_expirations ticker) as [Hr _]; [by left|].
      congruence.
    + destruct (get_options_data_no_expirations ticker) as [Hr _]; [by right|].
      congruence.
    + destruct (get_options_data_expirations ticker e exps Hopt)
        as (p & all & _ & _ & (H1 & H2 & Hlen) & Hr).
      rewrite Hr in Hsnap.
      destruct (all.1) as [|c cs] eqn:E1; [done|].
      destruct (all.2) as [|q qs] eqn:E2; [done|].
      simpl in Hsnap. injection Hsnap as <-. simpl.
      split; by apply concat_nonempty.
  - intros exps all Hopt Hall Hempty.
    destruct exps as [|e exps].
    + by destruct (get_options_data_no_expirations ticker) as [Hr _]; [by right|].
    + destruct (get_options_data_expirations ticker e exps Hopt)
        as (p & all' & _ & Hall' & Hinv & Hr).
      rewrite Hall in Hall'. injection Hall' as <-.
      assert (all.1 = [] \/ all.2 = []) as Hnil.
      { destruct Hinv as (H1 & H2 & _).
        destruct Hempty as [Hc|Hc]; [left|right].
        - destruct (decide (all.1 = [])) as [|Hne]; [done|].
          by destruct (concat_nonempty _ Hne H1).
        - destruct (decide (all.2 = [])) as [|Hne]; [done|].
          by destruct (concat_nonempty _ Hne H2). }
      rewrite Hr. destruct Hnil as [-> | ->]; simpl; [done|].
      by rewrite orb_true_r.
Qed.

(** C7: when the provider's list of expirations is empty or cannot be had,
    the retriever returns [None] and has asked for no option chain. *)
Theorem no_expirations_no_chain_fetch (ticker : Ticker) :
  options ticker = Raised \/ options ticker = Returned [] ->
  result (get_options_data ticker) = Returned None /\
  forall exp_date, CallOptionChain exp_date ∉ trace (get_options_data ticker).
Proof.
  intros Hopt.
  destruct (get_options_data_no_expirations ticker Hopt) as [Hr Ht].
  split; [done|]. intros exp_date. rewrite Ht.
  destruct (get_price_returns ticker) as (_ & _ & [-> | ->]); simpl; intros Hin;
    repeat (apply elem_of_cons in Hin as [?|Hin]; [done|]);
    by apply elem_of_nil in Hin.
Qed.


Lemma near_expirations_nonempty (expirations : list string) (e : string) :
  e ∈ near_expirations expirations -> exists e' rest, expirations = e' :: rest.
Proof.
  destruct expirations as [|e' rest]; [|by eauto].
  unfold near_expirations. simpl. intros H. by apply elem_of_nil in H.
Qed.

Lemma get_options_data_available (ticker : Ticker) :
  chain_available ticker ->
  exists snap p,
    result (get_options_data ticker) = Returned (Some snap) /\
    result (get_price ticker) = Returned p /\ current_price snap = p.
Proof.
  intros (exps & e & c & q & Hopt & He & Hchain & Hc & Hq).
  destruct (near_expirations_nonempty _ _ He) as (e' & rest & ->).
  destruct (get_options_data_expirations ticker e' rest Hopt)
    as (p & all & Hp & Hall & Hinv & Hr).
  destruct (fetch_expirations_returns ticker (near_expirations (e' :: rest)) ([], []))
    as (all' & Hall' & _ & _ & _ & Hgood).
  rewrite Hall in Hall'. injection Hall' as <-.
  assert (all.1 <> []) as H1 by (apply Hgood; eauto 10).
  assert (all.2 <> []) as H2 by (by rewrite <- (paired_frames_empty_iff all Hinv)).
  destruct (all.1) as [|c1 cs]; [done|]. destruct (all.2) as [|q1 qs]; [done|].
  simpl in Hr. eauto.
Qed.

Lemma fetch_expiration_ext (t1 t2 : Ticker) acc (e : string) :
  option_chain t1 e = option_chain t2 e ->
  fetch_expiration t1 acc e = fetch_expiration t2 acc e.
Proof. intros H. unfold fetch_expiration. by rewrite H. Qed.

Lemma fetch_expirations_ext (t1 t2 : Ticker) (exps : list string) acc :
  (forall e, option_chain t1 e = option_chain t2 e) ->
  fetch_expirations t1 exps acc = fetch_expirations t2 exps acc.
Proof.
  intros H. revert acc. induction exps as [|e exps IH]; intros acc; [done|].
  cbn [fetch_expirations]. rewrite (fetch_expiration_ext t1 t2 acc e (H e)).
  unfold mbind, IO_bind.
  destruct (result (fetch_expiration t2 acc e)); [done|]. by rewrite IH.
Qed.

(** Whether the retriever answers [None] depends on the expirations and
    the chains only, not on the price sources. *)
Lemma absent_depends_on_chains_only (t1 t2 : Ticker) :
  same_chains t1 t2 ->
  result (get_options_data t1) = Returned None <->
  result (get_options_data t2) = Returned None.
Proof.
  intros [Hopt Hchain].
  destruct (options t1) as [|[|e exps]] eqn:H1.
  - destruct (get_options_data_no_expirations t1) as [-> _]; [by left|].
    destruct (get_options_data_no_expirations t2) as [-> _]; [left; congruence|].
    done.
  - destruct (get_options_data_no_expirations t1) as [-> _]; [by right|].
    destruct (get_options_data_no_expirations t2) as [-> _]; [right; congruence|].
    done.
  - assert (options t2 = Returned (e :: exps)) as H2 by congruence.
    destruct (get_options_data_expirations t1 e exps H1) as (p1 & a1 & _ & Ha1 & _ & ->).
    destruct (get_options_data_expirations t2 e exps H2) as (p2 & a2 & _ & Ha2 & _ & ->).
    rewrite (fetch_expirations_ext t1 t2 _ _ Hchain), Ha2 in Ha1.
    injection Ha1 as <-.
    by destruct (Pandas.empty a2.1 || Pandas.empty a2.2).
Qed.

Lemma analyze_options_returns (sym : string) (data : ChainSnapshot) (now : string) :
  exists a, analyze_options sym data now = Some a /\
    symbol a = sym /\ currentPrice a = current_price data /\ flagged a = None.
Proof.
  unfold analyze_options, py_int.
  destruct (call_put_ratio_defined
              (Pandas.sum (Pandas.fillna 0%Z (volume <$> calls data)))
              (Pandas.sum (Pandas.fillna 0%Z (volume <$> puts data))))
    as (q & -> & _).
  eexists. by split.
Qed.

(** C8: when neither price source gives a price and a chain can be fetched,
    the single-symbol scan still answers with an analysis, whose
    [currentPrice] is 0; and whether the retriever answers [None] does not
    depend on the price sources at all. *)
Theorem price_failure_is_not_fatal (yf : Provider) (now sym : string) :
  (price_unavailable (yf (upper sym)) -> chain_available (yf (upper sym)) ->
   exists a, result (scan_symbol yf now sym) = Returned (Scan200 a) /\
             currentPrice a = 0%Q) /\
  (forall ticker, same_chains (yf (upper sym)) ticker ->
     result (get_options_data (yf (upper sym))) = Returned None <->
     result (get_options_data ticker) = Returned None).
Proof.
  split; [|apply absent_depends_on_chains_only].
  intros Hprice Hchain.
  destruct (get_options_data_available _ Hchain) as (snap & p & Hsnap & Hp & Hcur).
  rewrite (get_price_unavailable _ Hprice) in Hp. injection Hp as <-.
  destruct (analyze_options_returns (upper sym) snap now) as (a & Ha & _ & Hprice_a & _).
  exists a. split; [|congruence].
  unfold scan_symbol, try_except, mbind, IO_bind, lift_option.
  cbn [result trace]. rewrite Hsnap. cbn [result trace]. rewrite Ha. done.
Qed.

Lemma present_snapshot_has_both_sides_witness :
  (let snap :=
     {| calls := Pandas.concat [Pandas.set_expiration "2024-01-19" [sample_row 7]];
        puts := Pandas.concat [Pandas.set_expiration "2024-01-19" [sample_row 3]];
        current_price := 0 |} in
   calls snap <> [] /\ puts snap <> []) /\
  result (get_options_data one_sided_ticker) = Returned None.
Proof.
  split.
  - apply (proj1 (present_snapshot_has_both_sides unpriced_ticker)
             {| calls := Pandas.concat [Pandas.set_expiration "2024-01-19" [sample_row 7]];
                puts := Pandas.concat [Pandas.set_expiration "2024-01-19" [sample_row 3]];
                current_price := 0 |}).
    reflexivity.
  - apply (proj2 (present_snapshot_has_both_sides one_sided_ticker)
             ["2024-01-19"] ([], [])); [reflexivity..|].
    by left.
Defined.

Lemma no_expirations_no_chain_fetch_witness :
  result (get_options_data unlisted_ticker) = Returned None /\
  forall exp_date, CallOptionChain exp_date ∉ trace (get_options_data unlisted_ticker).
Proof. apply (no_expirations_no_chain_fetch unlisted_ticker). by right. Defined.

Lemma price_failure_is_not_fatal_witness :
  (exists a,
     result (scan_symbol (fun _ => unpriced_ticker) "now" "spy") = Returned (Scan200 a) /\
     currentPrice a = 0%Q) /\
  (result (get_options_data unpriced_ticker) = Returned None <->
   result (get_options_data priced_ticker) = Returned None).
Proof.
  split.
  - apply (proj1 (price_failure_is_not_fatal (fun _ => unpriced_ticker) "now" "spy")).
    + split; by left.
    + exists ["2024-01-19"], "2024-01-19", [sample_row 7], [sample_row 3].
      repeat split; try done. unfold near_expirations. simpl. by left.
  - apply (proj2 (price_failure_is_not_fatal (fun _ => unpriced_ticker) "now" "spy")).
    by split.
Defined.


(** ** The batch scan *)

Lemma get_options_data_returns (ticker : Ticker) :
  exists o, result (get_options_data ticker) = Returned o.
Proof.
  destruct (options ticker) as [|[|e exps]] eqn:Hopt.
  - destruct (get_options_data_no_expirations ticker) as [-> _]; [by left|eauto].
  - destruct (get_options_data_no_expirations ticker) as [-> _]; [by right|eauto].
  - destruct (get_options_data_expirations ticker e exps Hopt) as (? & ? & _ & _ & _ & ->).
    eauto.
Qed.

Lemma py_ge_meets (x : Q) (t : JsonValue) (b : bool) :
  result (py_ge x t) = Returned b -> b = true <-> meets x t.
Proof.
  destruct t as [q|]; simpl; [|done]. intros [= <-]. apply Qle_bool_iff.
Qed.

Lemma py_ge_raised (x : Q) (t : JsonValue) :
  result (py_ge x t) = Raised -> ~ meets x t.
Proof. destruct t; simpl; [done|tauto]. Qed.

Lemma scan_entry_returns (yf : Provider) (cvt rt : JsonValue) (now sym : string) :
  exists r, result (scan_entry yf cvt rt now sym) = Returned r /\
            entry_flag_rule cvt rt r.
Proof.
  unfold scan_entry, try_except, mbind, IO_bind, lift_option.
  destruct (get_options_data_returns (yf (strip (upper sym)))) as (o & ->).
  cbn [result trace]. destruct o as [d|]; [|by eexists].
  destruct (analyze_options_returns (strip (upper sym)) d now) as (a & -> & _ & _ & Hfl).
  cbn [result trace mret IO_ret].
  destruct (result (py_ge (inject_Z (callVolume a)) cvt)) as [|b1] eqn:E1;
    cbn [result trace]; [rewrite ?E1; by eexists|].
  apply py_ge_meets in E1.
  destruct b1.
  - destruct (result (py_ge (ratio a) rt)) as [|b2] eqn:E2; cbn [result trace].
    + rewrite ?E2. cbn [result]. by eexists.
    + rewrite ?E2. cbn [result]. eexists. split; [done|].
      exists b2. split; [done|]. apply py_ge_meets in E2. simpl. tauto.
  - cbn [result]. eexists. split; [done|]. exists false. split; [done|].
    simpl. split; [done|]. intros [H _]. by apply E1 in H.
Qed.

Lemma scan_entries_returns (yf : Provider) (cvt rt : JsonValue) (now : string)
    (syms : list string) (acc : list ResultEntry) :
  exists rs, result (scan_entries yf cvt rt now syms acc) = Returned rs /\
    length rs = (length acc + length syms)%nat /\
    (Forall (entry_flag_rule cvt rt) acc -> Forall (entry_flag_rule cvt rt) rs).
Proof.
  revert acc. induction syms as [|sym syms IH]; intros acc; cbn [scan_entries].
  - exists acc. split; [done|]. split; [simpl; lia|done].
  - destruct (scan_entry_returns yf cvt rt now sym) as (r & Hr & Hrule).
    destruct (IH (acc ++ [r])) as (rs & Hrs & Hlen & Hall).
    exists rs. rewrite (result_bind _ _ _ Hr). split; [done|]. split.
    + rewrite Hlen, length_app. simpl. lia.
    + intros Hacc. apply Hall, Forall_app. split; [done|]. by constructor.
Qed.

(** ** The batch summary *)

Lemma valid_results_successes (results : list ResultEntry) :
  filter (fun r => has_error r = false) results = AnalysisEntry <$> successes results.
Proof.
  unfold successes. induction results as [|r results IH]; [done|].
  rewrite filter_cons. destruct r as [a|s e f]; csimpl; by rewrite IH.
Qed.

Lemma ratios_of_successes (l : list SymbolAnalysis) :
  mapM get_ratio (AnalysisEntry <$> l) = Some (ratio <$> l).
Proof.
  apply mapM_Some, Forall2_fmap, Forall_Forall2_diag, Forall_forall. done.
Qed.

Lemma flagged_count_successes (l : list SymbolAnalysis) (k : nat) :
  foldl (fun n r => if get_flagged r then S n else n) k (AnalysisEntry <$> l)
  = (k + length (filter (fun a => flagged a = Some true) l))%nat.
Proof.
  revert k. induction l as [|a l IH]; intros k; csimpl; [lia|].
  rewrite IH, filter_cons.
  destruct (flagged a) as [[|]|]; simpl; repeat case_decide; simplify_eq; simpl; lia.
Qed.

Lemma summarize_returns (results : list ResultEntry) (now : string) :
  exists s, summarize results now = Some s /\ summary_of results s.
Proof.
  unfold summarize. rewrite valid_results_successes.
  rewrite ratios_of_successes, flagged_count_successes, length_fmap.
  destruct (successes results) as [|a l] eqn:E.
  - csimpl. eexists. split; [done|].
    unfold summary_of. rewrite E. cbn [totalScanned successfulScans flaggedCount avgRatio].
    by repeat split.
  - cbn [fmap list_fmap Pandas.empty mbind option_bind].
    unfold PyNum.truediv_float. rewrite decide_False by (simpl; lia).
    cbn [mbind option_bind]. eexists. split; [done|].
    unfold summary_of. rewrite E.
    cbn [totalScanned successfulScans flaggedCount avgRatio].
    split; [done|]. split; [done|]. split; [done|]. split; [done|]. intros _.
    rewrite (round_Qeq _ (arithmetic_mean (ratio <$> a :: l))).
    + split; [done|]. apply round_rounded.
    + unfold arithmetic_mean, py_sum. rewrite length_fmap.
      apply Qmult_comp; [|reflexivity]. rewrite foldl_Qplus. apply Qplus_0_l.
Qed.

Lemma scan_multiple_batch (yf : Provider) (now : string) (req : ScanRequest)
    (summary : BatchSummary) (results : list ResultEntry) :
  result (scan_multiple yf now req) = Returned (Batch200 summary results) ->
  result (scan_entries yf (call_vol_threshold_of req) (ratio_threshold_of req)
            now (symbols req) []) = Returned results /\
  summarize results now = Some summary.
Proof.
  unfold scan_multiple, try_except, mbind, IO_bind, lift_option.
  destruct (symbols req) as [|sym syms] eqn:Hsyms; cbn [Pandas.empty result trace mret IO_ret]; [done|].
  destruct (scan_entries_returns yf (call_vol_threshold_of req) (ratio_threshold_of req)
              now (sym :: syms) []) as (rs & Hrs & _).
  rewrite Hrs. cbn [result trace].
  destruct (summarize_returns rs now) as (s & Hs & _). rewrite Hs.
  cbn [result trace mret IO_ret]. intros [= <- <-]. done.
Qed.

(** C2: in the answer to a batch scan, every successful entry is flagged
    exactly when [callVolume >= callVolThreshold] and
    [ratio >= ratioThreshold] both hold; the thresholds are those of the
    request, 5000 and 2.0 when the request leaves them out. *)
Theorem flagged_iff_both_thresholds (yf : Provider) (now : string) (req : ScanRequest)
    (summary : BatchSummary) (results : list ResultEntry) :
  result (scan_multiple yf now req) = Returned (Batch200 summary results) ->
  (forall a, AnalysisEntry a ∈ results ->
     flag_rule (call_vol_threshold_of req) (ratio_threshold_of req) a) /\
  (callVolThreshold req = None -> call_vol_threshold_of req = JNumber 5000) /\
  (ratioThreshold req = None -> ratio_threshold_of req = JNumber 2) /\
  (forall t, callVolThreshold req = Some t -> call_vol_threshold_of req = t) /\
  (forall t, ratioThreshold req = Some t -> ratio_threshold_of req = t).
Proof.
  intros Hbatch. apply scan_multiple_batch in Hbatch as [Hres _].
  split.
  - destruct (scan_entries_returns yf (call_vol_threshold_of req)
                (ratio_threshold_of req) now (symbols req) []) as (rs & Hrs & _ & Hall).
    rewrite Hres in Hrs. injection Hrs as <-.
    intros a Ha. specialize (Hall (Forall_nil_2 _)).
    rewrite Forall_forall in Hall. apply (Hall _ Ha).
  - unfold call_vol_threshold_of, ratio_threshold_of.
    repeat split; intros; by simplify_option_eq.
Qed.


Lemma flagged_iff_both_thresholds_witness :
  exists s a,
    result (scan_multiple (fun _ => active_ticker) "now" default_request)
    = Returned (Batch200 s [AnalysisEntry a]) /\
    flagged a = Some true /\
    flag_rule (JNumber 5000) (JNumber 2) a.
Proof.
  assert (exists s a,
            result (scan_multiple (fun _ => active_ticker) "now" default_request)
            = Returned (Batch200 s [AnalysisEntry a]) /\ flagged a = Some true)
    as (s & a & Hbatch & Hflag).
  { eexists _, _. split; vm_compute; reflexivity. }
  exists s, a. split; [exact Hbatch|]. split; [exact Hflag|].
  apply (proj1 (flagged_iff_both_thresholds _ _ _ _ _ Hbatch)).
  apply list_elem_of_here.
Defined.


(** ** Further properties of the retriever *)

Lemma fetch_expiration_kept (ticker : Ticker) acc (e : string) :
  result (fetch_expiration ticker acc e)
  = Returned (match kept_chain ticker e with
              | Some cp => (acc.1 ++ [cp.1], acc.2 ++ [cp.2])
              | None => acc
              end).
Proof.
  unfold fetch_expiration, kept_chain. run_io.
  destruct (option_chain ticker e) as [|[c p]]; simpl; [done|].
  by destruct (Pandas.empty c || Pandas.empty p).
Qed.

Lemma fetch_expirations_kept (ticker : Ticker) (exps : list string) acc :
  result (fetch_expirations ticker exps acc)
  = Returned (acc.1 ++ (fst <$> omap (kept_chain ticker) exps),
              acc.2 ++ (snd <$> omap (kept_chain ticker) exps)).
Proof.
  revert acc. induction exps as [|e exps IH]; intros acc; cbn [fetch_expirations].
  - csimpl. rewrite !app_nil_r. by destruct acc.
  - rewrite (result_bind _ _ _ (fetch_expiration_kept ticker acc e)), IH.
    csimpl. destruct (kept_chain ticker e) as [[c p]|]; csimpl; [|done].
    by rewrite <- !app_assoc.
Qed.

Lemma near_expirations_take (expirations : list string) :
  near_expirations expirations = take 4 expirations.
Proof.
  unfold near_expirations.
  destruct (decide (4 <= length expirations)%nat).
  - by rewrite Nat.min_l.
  - rewrite Nat.min_r by lia. rewrite firstn_all. by rewrite take_ge by lia.
Qed.

Lemma get_options_data_trace (ticker : Ticker) (expirations : list string) :
  options ticker = Returned expirations ->
  trace (get_options_data ticker)
  = trace (get_price ticker) ++ [CallOptions]
    ++ (CallOptionChain <$> near_expirations expirations).
Proof.
  intros Hopt. destruct (get_price_returns ticker) as (p & Hp & _).
  destruct expirations as [|e exps].
  - destruct (get_options_data_no_expirations ticker) as [_ ->]; [by right|done].
  - destruct (fetch_expirations_returns ticker (near_expirations (e :: exps)) ([], []))
      as (all & Hall & Htr & _).
    unfold get_options_data, try_except, provider_call, mbind, IO_bind, mret, IO_ret.
    cbn [result trace]. rewrite Hp. cbn [result trace]. rewrite Hopt.
    cbn [result trace Pandas.empty]. rewrite Hall. cbn [result trace].
    rewrite Htr.
    destruct (Pandas.empty all.1 || Pandas.empty all.2); cbn [result trace];
      by rewrite app_nil_r.
Qed.

Lemma get_options_data_snapshot (ticker : Ticker) (expirations : list string)
    (snap : ChainSnapshot) :
  options ticker = Returned expirations ->
  result (get_options_data ticker) = Returned (Some snap) ->
  calls snap = Pandas.concat (fst <$> omap (kept_chain ticker) (near_expirations expirations)) /\
  puts snap = Pandas.concat (snd <$> omap (kept_chain ticker) (near_expirations expirations)) /\
  result (get_price ticker) = Returned (current_price snap).
Proof.
  intros Hopt Hsnap. destruct expirations as [|e exps].
  - destruct (get_options_data_no_expirations ticker) as [Hr _]; [by right|congruence].
  - destruct (get_options_data_expirations ticker e exps Hopt)
      as (p & all & Hp & Hall & _ & Hr).
    rewrite fetch_expirations_kept in Hall. injection Hall as <-.
    rewrite Hr in Hsnap. cbn [fst snd app] in Hsnap.
    destruct (Pandas.empty _ || Pandas.empty _); [done|].
    injection Hsnap as <-. by cbn.
Qed.

Lemma chain_fetches_app (t1 t2 : list Event) :
  chain_fetches (t1 ++ t2) = chain_fetches t1 ++ chain_fetches t2.
Proof. unfold chain_fetches. apply omap_app. Qed.

Lemma chain_fetches_chains (exps : list string) :
  chain_fetches (CallOptionChain <$> exps) = exps.
Proof.
  unfold chain_fetches. induction exps as [|e exps IH]; csimpl; [done|].
  by rewrite IH.
Qed.

Lemma chain_fetches_price (ticker : Ticker) :
  chain_fetches (trace (get_price ticker)) = [].
Proof. by destruct (get_price_returns ticker) as (_ & _ & [-> | ->]). Qed.

(** X1: the option chains the retriever asks for are those of the first
    four expirations of the provider's list (all of them when there are
    fewer), once each and in that order, whether or not a fetch fails. *)
Theorem chain_fetches_are_first_four (ticker : Ticker) (expirations : list string) :
  options ticker = Returned expirations ->
  chain_fetches (trace (get_options_data ticker)) = take 4 expirations.
Proof.
  intros Hopt. rewrite (get_options_data_trace _ _ Hopt), !chain_fetches_app.
  rewrite chain_fetches_price, chain_fetches_chains, near_expirations_take.
  done.
Qed.


(** X2: the retriever's answer is determined by the first four expirations:
    [None] when none of them has a chain that can be fetched with calls and
    puts, and otherwise the snapshot whose calls (puts) are the tagged calls
    (puts) of those that have, concatenated in expiration order, nothing
    merged or dropped, with the price found. *)
Theorem snapshot_concatenates_kept_chains (ticker : Ticker)
    (expirations : list string) (p : Q) :
  options ticker = Returned expirations ->
  result (get_price ticker) = Returned p ->
  result (get_options_data ticker)
  = Returned (match omap (kept_chain ticker) (take 4 expirations) with
              | [] => None
              | kept => Some {| calls := Pandas.concat (fst <$> kept);
                                puts := Pandas.concat (snd <$> kept);
                                current_price := p |}
              end).
Proof.
  intros Hopt Hp. rewrite <- near_expirations_take.
  destruct expirations as [|e exps].
  - destruct (get_options_data_no_expirations ticker) as [Hr _].
    + by right.
    + rewrite Hr. reflexivity.
  - destruct (get_options_data_expirations ticker e exps Hopt)
      as (p' & all & Hp' & Hall & _ & Hr).
    rewrite Hp in Hp'. injection Hp' as <-.
    rewrite fetch_expirations_kept in Hall.
    remember (omap (kept_chain ticker) (near_expirations (e :: exps))) as kept eqn:Hk.
    cbn [fst snd app] in Hall.
    assert (all = (fst <$> kept, snd <$> kept)) as -> by congruence.
    rewrite Hr. cbn [fst snd]. clear. by destruct kept as [|[c q] kept].
Qed.


Lemma elem_of_concat_kept (ticker : Ticker) (exps : list string) (r : OptionRecord) :
  r ∈ Pandas.concat (fst <$> omap (kept_chain ticker) exps) ->
  exists e c p, e ∈ exps /\ option_chain ticker e = Returned (c, p) /\
    c <> [] /\ p <> [] /\ r ∈ Pandas.set_expiration e c.
Proof.
  unfold Pandas.concat. intros Hr.
  apply list_elem_of_join in Hr as (df & Hr & Hdf).
  apply list_elem_of_fmap in Hdf as ([c' p'] & -> & Hk).
  apply list_elem_of_omap in Hk as (e & He & Hk).
  unfold kept_chain in Hk.
  destruct (option_chain ticker e) as [|[c p]] eqn:Hc; [done|].
  destruct c as [|r0 c]; [done|]. destruct p as [|r1 p]; [done|].
  simpl in Hk. injection Hk as <- <-. by exists e, (r0 :: c), (r1 :: p).
Qed.

Lemma elem_of_set_expiration (e : string) (df : DataFrame) (r : OptionRecord) :
  r ∈ Pandas.set_expiration e df -> expiration r = e.
Proof.
  unfold Pandas.set_expiration. intros Hr.
  by apply list_elem_of_fmap in Hr as (r0 & -> & _).
Qed.

Lemma elem_of_concat_kept_puts (ticker : Ticker) (exps : list string) (r : OptionRecord) :
  r ∈ Pandas.concat (snd <$> omap (kept_chain ticker) exps) ->
  exists e c p, e ∈ exps /\ option_chain ticker e = Returned (c, p) /\
    c <> [] /\ p <> [] /\ r ∈ Pandas.set_expiration e p.
Proof.
  unfold Pandas.concat. intros Hr.
  apply list_elem_of_join in Hr as (df & Hr & Hdf).
  apply list_elem_of_fmap in Hdf as ([c' p'] & -> & Hk).
  apply list_elem_of_omap in Hk as (e & He & Hk).
  unfold kept_chain in Hk.
  destruct (option_chain ticker e) as [|[c p]] eqn:Hc; [done|].
  destruct c as [|r0 c]; [done|]. destruct p as [|r1 p]; [done|].
  simpl in Hk. injection Hk as <- <-. by exists e, (r0 :: c), (r1 :: p).
Qed.

(** X3: every record of a returned snapshot is tagged with one of the first
    four expirations and is a record of the provider's chain for that
    expiration, on its own side, the other side of that chain being
    non-empty. *)
Theorem snapshot_records_come_from_near_chains (ticker : Ticker)
    (expirations : list string) (snap : ChainSnapshot) (r : OptionRecord) :
  options ticker = Returned expirations ->
  result (get_options_data ticker) = Returned (Some snap) ->
  (r ∈ calls snap ->
   expiration r ∈ take 4 expirations /\
   exists c p, option_chain ticker (expiration r) = Returned (c, p) /\
     p <> [] /\ r ∈ Pandas.set_expiration (expiration r) c) /\
  (r ∈ puts snap ->
   expiration r ∈ take 4 expirations /\
   exists c p, option_chain ticker (expiration r) = Returned (c, p) /\
     c <> [] /\ r ∈ Pandas.set_expiration (expiration r) p).
Proof.
  intros Hopt Hsnap.
  destruct (get_options_data_snapshot _ _ _ Hopt Hsnap) as (Hc & Hp & _).
  rewrite Hc, Hp, near_expirations_take. split; intros Hr.
  - apply elem_of_concat_kept in Hr as (e & c & p & He & Hchain & _ & Hpn & Hr).
    rewrite (elem_of_set_expiration _ _ _ Hr). split; [done|]. by exists c, p.
  - apply elem_of_concat_kept_puts in Hr as (e & c & p & He & Hchain & Hcn & _ & Hr).
    rewrite (elem_of_set_expiration _ _ _ Hr). split; [done|]. by exists c, p.
Qed.


(** ** The price of a snapshot *)

Lemma snapshot_has_expirations (ticker : Ticker) (snap : ChainSnapshot) :
  result (get_options_data ticker) = Returned (Some snap) ->
  exists expirations, options ticker = Returned expirations /\
    result (get_price ticker) = Returned (current_price snap).
Proof.
  intros Hsnap. destruct (options ticker) as [|exps] eqn:Hopt.
  - destruct (get_options_data_no_expirations ticker) as [Hr _]; [by left|congruence].
  - exists exps. split; [done|].
    by destruct (get_options_data_snapshot _ _ _ Hopt Hsnap) as (_ & _ & ?).
Qed.

Lemma info_not_in_chains (exps : list string) :
  CallInfo ∉ [CallOptions] ++ (CallOptionChain <$> exps).
Proof.
  intros Hin. apply elem_of_cons in Hin as [?|Hin]; [done|].
  by apply list_elem_of_fmap in Hin as (? & ? & _).
Qed.

(** X4: when the daily history has rows, the price of the snapshot is its
    last close and the quote ([ticker.info]) is never asked for. *)
Theorem price_is_last_daily_close (ticker : Ticker) (closes : list Q) (c : Q)
    (snap : ChainSnapshot) :
  history ticker = Returned closes -> last closes = Some c ->
  result (get_options_data ticker) = Returned (Some snap) ->
  current_price snap = c /\ CallInfo ∉ trace (get_options_data ticker).
Proof.
  intros Hh Hlast Hsnap.
  destruct (snapshot_has_expirations _ _ Hsnap) as (exps & Hopt & Hp).
  rewrite (get_options_data_trace _ _ Hopt).
  revert Hp. unfold get_price. run_io. rewrite Hh. simpl.
  destruct closes as [|c0 closes]; [done|]. simpl. rewrite Hlast. simpl.
  intros [= <-]. split; [done|]. intros Hin.
  apply elem_of_cons in Hin as [?|Hin]; [done|]. by apply info_not_in_chains in Hin.
Qed.

(** X5: when fetching the daily history raises, the price of the snapshot
    is 0 and the quote is not asked for, whatever it holds. *)
Theorem history_failure_skips_quote (ticker : Ticker) (snap : ChainSnapshot) :
  history ticker = Raised ->
  result (get_options_data ticker) = Returned (Some snap) ->
  current_price snap = 0%Q /\ CallInfo ∉ trace (get_options_data ticker).
Proof.
  intros Hh Hsnap.
  destruct (snapshot_has_expirations _ _ Hsnap) as (exps & Hopt & Hp).
  rewrite (get_options_data_trace _ _ Hopt).
  revert Hp. unfold get_price. run_io. rewrite Hh. simpl.
  intros [= <-]. split; [done|]. intros Hin.
  apply elem_of_cons in Hin as [?|Hin]; [done|]. by apply info_not_in_chains in Hin.
Qed.


(** ** Further properties of the batch scan *)

Lemma scan_entry_shape (yf : Provider) (cvt rt : JsonValue) (now sym : string) :
  exists r, result (scan_entry yf cvt rt now sym) = Returned r /\
    entry_symbol r = normalize sym /\
    trace (scan_entry yf cvt rt now sym)
    = trace (get_options_data (yf (normalize sym))).
Proof.
  unfold scan_entry, normalize, try_except, mbind, IO_bind, lift_option.
  destruct (get_options_data_returns (yf (strip (upper sym)))) as (o & Ho).
  rewrite Ho. cbn [result trace]. destruct o as [d|].
  2:{ eexists. cbn [result trace mret IO_ret]. by rewrite app_nil_r. }
  destruct (analyze_options_returns (strip (upper sym)) d now) as (a & -> & Hsym & _).
  cbn [result trace mret IO_ret].
  destruct cvt as [c|]; cbn [py_ge result trace mret IO_ret raise].
  2:{ eexists. by rewrite !app_nil_r. }
  destruct (Qle_bool c (inject_Z (callVolume a))); cbn [result trace mret IO_ret].
  - destruct rt as [q|]; cbn [py_ge result trace mret IO_ret raise].
    + eexists. by rewrite !app_nil_r.
    + eexists. by rewrite !app_nil_r.
  - eexists. by rewrite !app_nil_r.
Qed.

Lemma scan_entries_shape (yf : Provider) (cvt rt : JsonValue) (now : string)
    (syms : list string) (acc : list ResultEntry) :
  exists rs, result (scan_entries yf cvt rt now syms acc) = Returned (acc ++ rs) /\
    Forall2 (fun sym r => result (scan_entry yf cvt rt now sym) = Returned r) syms rs /\
    trace (scan_entries yf cvt rt now syms acc) = retrieval_trace yf syms.
Proof.
  revert acc. induction syms as [|sym syms IH]; intros acc; cbn [scan_entries].
  - exists []. by rewrite app_nil_r.
  - destruct (scan_entry_shape yf cvt rt now sym) as (r & Hr & _ & Htr).
    destruct (IH (acc ++ [r])) as (rs & Hrs & Hall & Htrs).
    exists (r :: rs).
    rewrite (result_bind _ _ _ Hr), (trace_bind _ _ _ Hr), Hrs, Htrs, Htr.
    rewrite <- app_assoc. split; [done|]. split; [by constructor|done].
Qed.

Lemma scan_multiple_shape (yf : Provider) (now : string) (req : ScanRequest) :
  symbols req <> [] ->
  exists summary results,
    result (scan_multiple yf now req) = Returned (Batch200 summary results) /\
    summarize results now = Some summary /\
    Forall2 (fun sym r =>
               result (scan_entry yf (call_vol_threshold_of req)
                         (ratio_threshold_of req) now sym) = Returned r)
            (symbols req) results /\
    trace (scan_multiple yf now req) = retrieval_trace yf (symbols req).
Proof.
  intros Hne.
  destruct (scan_entries_shape yf (call_vol_threshold_of req) (ratio_threshold_of req)
              now (symbols req) []) as (rs & Hrs & Hall & Htr).
  destruct (summarize_returns rs now) as (s & Hs & _).
  exists s, rs. cbn [app] in Hrs.
  unfold scan_multiple, try_except, mbind, IO_bind, lift_option.
  destruct (symbols req) as [|sym syms] eqn:Hsyms; [done|].
  cbn [Pandas.empty result trace]. rewrite Hrs. cbn [result trace].
  rewrite Hs. cbn [result trace mret IO_ret]. rewrite Htr, !app_nil_r. done.
Qed.

(** X7: a batch scan answers 400 exactly when the list of symbols is empty,
    and then it has made no provider call. *)
Theorem empty_batch_is_rejected (yf : Provider) (now : string) (req : ScanRequest) :
  (result (scan_multiple yf now req) = Returned Batch400 <-> symbols req = []) /\
  (symbols req = [] -> trace (scan_multiple yf now req) = []).
Proof.
  split; [split|].
  - intros Hr. destruct (symbols req) as [|sym syms] eqn:Hsyms; [done|].
    destruct (scan_multiple_shape yf now req) as (s & rs & Hb & _); [by rewrite Hsyms|].
    congruence.
  - intros Hsyms. unfold scan_multiple. by rewrite Hsyms.
  - intros Hsyms. unfold scan_multiple. by rewrite Hsyms.
Qed.



(** X9: the provider calls of a batch scan are those of retrieving each
    normalised symbol once, in the order of the request; the analysis and
    the flagging make none. *)
Theorem batch_retrieves_each_symbol_once (yf : Provider) (now : string)
    (req : ScanRequest) :
  trace (scan_multiple yf now req) = retrieval_trace yf (symbols req).
Proof.
  destruct (symbols req) as [|sym syms] eqn:Hsyms.
  - unfold scan_multiple. by rewrite Hsyms.
  - rewrite <- Hsyms.
    destruct (scan_multiple_shape yf now req) as (_ & _ & _ & _ & _ & ->);
      [by rewrite Hsyms|done].
Qed.

Lemma Forall2_functional_eq (yf : Provider) (cvt rt : JsonValue) (now : string)
    (syms : list string) (rs rs' : list ResultEntry) :
  Forall2 (fun sym r => result (scan_entry yf cvt rt now sym) = Returned r) syms rs ->
  Forall2 (fun sym r => result (scan_entry yf cvt rt now sym) = Returned r) syms rs' ->
  rs = rs'.
Proof.
  intros H. revert rs'. induction H as [|sym r syms rs Hr _ IH]; intros rs' H'.
  - by apply Forall2_nil_inv_l in H'.
  - apply Forall2_cons_inv_l in H' as (r' & rs'' & Hr' & H' & ->).
    f_equal; [congruence|by apply IH].
Qed.

(** X10: the entries do not depend on one another: with the same
    thresholds, the results of scanning [l1 ++ l2] are the results for [l1]
    followed by the results for [l2]. *)
Theorem batch_results_concatenate (yf : Provider) (now : string) (req : ScanRequest)
    (l1 l2 : list string) (s1 s2 : BatchSummary) (r1 r2 : list ResultEntry) :
  result (scan_multiple yf now (with_symbols req l1)) = Returned (Batch200 s1 r1) ->
  result (scan_multiple yf now (with_symbols req l2)) = Returned (Batch200 s2 r2) ->
  exists s, result (scan_multiple yf now (with_symbols req (l1 ++ l2)))
            = Returned (Batch200 s (r1 ++ r2)).
Proof.
  intros H1 H2.
  assert (l1 <> []) as Hl1.
  { intros ->. unfold scan_multiple in H1. by cbn in H1. }
  assert (l2 <> []) as Hl2.
  { intros ->. unfold scan_multiple in H2. by cbn in H2. }
  destruct (scan_multiple_shape yf now (with_symbols req l1) Hl1)
    as (s1' & r1' & Hb1 & _ & Ha1 & _).
  destruct (scan_multiple_shape yf now (with_symbols req l2) Hl2)
    as (s2' & r2' & Hb2 & _ & Ha2 & _).
  rewrite H1 in Hb1. injection Hb1 as <- <-.
  rewrite H2 in Hb2. injection Hb2 as <- <-.
  destruct (scan_multiple_shape yf now (with_symbols req (l1 ++ l2)))
    as (s & rs & Hb & _ & Ha & _).
  { cbn. by destruct l1. }
  exists s. rewrite Hb. do 2 f_equal.
  eapply Forall2_functional_eq; [exact Ha|].
  cbn [symbols with_symbols]. by apply Forall2_app.
Qed.





Lemma length_successes (results : list ResultEntry) :
  (length (successes results) <= length results)%nat.
Proof.
  unfold successes. induction results as [|[a|? ? ?] rs IH]; csimpl; lia.
Qed.

(** X13: in every summary [flaggedCount <= successfulScans <=
    totalScanned]. *)
Theorem summary_counts_are_nested (results : list ResultEntry) (now : string)
    (s : BatchSummary) :
  summarize results now = Some s ->
  (flaggedCount s <= successfulScans s <= totalScanned s)%nat.
Proof.
  intros Hs. destruct (summarize_returns results now) as (s' & Hs' & Ht & Hsu & Hf & _).
  assert (s' = s) as -> by congruence.
  rewrite Ht, Hsu, Hf. split; [apply length_filter|apply length_successes].
Qed.

(** ** Further properties of the endpoints *)

(** X14: the single-symbol scan retrieves the upper-cased symbol once and
    never answers 500 on a provider failure: it answers 404 with that symbol
    when the retriever has no data, and otherwise 200 with the analysis of
    the snapshot, filed under that symbol, with the snapshot's price and
    without a [flagged] key. *)
Theorem scan_symbol_answers (yf : Provider) (now sym : string) :
  trace (scan_symbol yf now sym) = trace (get_options_data (yf (upper sym))) /\
  ((result (get_options_data (yf (upper sym))) = Returned None /\
    result (scan_symbol yf now sym) = Returned (Scan404 (upper sym))) \/
   (exists snap a,
      result (get_options_data (yf (upper sym))) = Returned (Some snap) /\
      analyze_options (upper sym) snap now = Some a /\
      result (scan_symbol yf now sym) = Returned (Scan200 a) /\
      symbol a = upper sym /\ currentPrice a = current_price snap /\
      flagged a = None)).
Proof.
  unfold scan_symbol, try_except, mbind, IO_bind, lift_option.
  destruct (get_options_data_returns (yf (upper sym))) as (o & Ho).
  rewrite Ho. cbn [result trace]. destruct o as [snap|].
  - destruct (analyze_options_returns (upper sym) snap now) as (a & Ha & Hs & Hp & Hf).
    rewrite Ha. cbn [result trace mret IO_ret]. rewrite !app_nil_r.
    split; [done|]. right. by exists snap, a.
  - cbn [result trace mret IO_ret]. rewrite app_nil_r. split; [done|]. by left.
Qed.

Lemma nlargest_top_rows (n : nat) (df : DataFrame) :
  top_rows n df (Pandas.nlargest_volume n df).
Proof.
  unfold Pandas.nlargest_volume.
  set (ranked := Pandas.sort_desc Pandas.volume_key _ ++ _).
  pose proof (ranked_rows_perm df) as Hperm. fold ranked in Hperm.
  pose proof (ranked_rows_sorted df) as Hsorted. fold ranked in Hsorted.
  split; [|split; [|split]].
  - rewrite length_take. f_equal. by rewrite Hperm, length_imap.
  - apply Forall_take, Forall_forall. intros ir Hir.
    apply elem_of_labelled_rows. by rewrite <- Hperm.
  - by apply StronglySorted_take.
  - intros jr Hjr Hout. apply elem_of_labelled_rows in Hjr.
    rewrite <- Hperm, <- (take_drop n ranked) in Hjr.
    apply elem_of_app in Hjr as [Hjr|Hjr]; [done|].
    apply Forall_forall. intros ir Hir.
    rewrite <- (take_drop n ranked) in Hsorted.
    by apply (StronglySorted_app_1_elem_of _ _ _ _ _ Hsorted).
Qed.

Lemma to_detail_records_rows (rows : list (nat * OptionRecord)) :
  Forall2 (fun ir t => detail_of ir.2 t) rows (to_detail_records rows).
Proof.
  unfold to_detail_records.
  apply Forall2_fmap_r, Forall_Forall2_diag, Forall_forall.
  intros ir _. by repeat split.
Qed.

(** X15: the top-strikes endpoint answers 404 with the upper-cased symbol
    when the retriever has no data, and otherwise 200 with that symbol, the
    snapshot's price and, per side, the [min(10, n)] most active records in
    rank order, each carrying its six fields, implied volatility
    included. *)
Theorem top_strikes_answers (yf : Provider) (now sym : string) :
  (result (get_options_data (yf (upper sym))) = Returned None /\
   result (top_strikes yf now sym) = Returned (Top404 (upper sym))) \/
  (exists snap body,
     result (get_options_data (yf (upper sym))) = Returned (Some snap) /\
     result (top_strikes yf now sym) = Returned (Top200 body) /\
     tsb_symbol body = upper sym /\ tsb_currentPrice body = current_price snap /\
     (exists rows, top_rows 10 (calls snap) rows /\
        Forall2 (fun ir t => detail_of ir.2 t) rows (topCalls body)) /\
     (exists rows, top_rows 10 (puts snap) rows /\
        Forall2 (fun ir t => detail_of ir.2 t) rows (topPuts body))).
Proof.
  unfold top_strikes, try_except, mbind, IO_bind.
  destruct (get_options_data_returns (yf (upper sym))) as (o & Ho).
  rewrite Ho. cbn [result trace]. destruct o as [snap|]; [right|by left].
  eexists snap, _. split; [done|]. split; [done|]. cbn.
  split; [done|]. split; [done|].
  split; eexists; (split; [apply nlargest_top_rows|apply to_detail_records_rows]).
Qed.

Lemma nlargest_volume_take (n m : nat) (df : DataFrame) :
  take n (Pandas.nlargest_volume m df) = Pandas.nlargest_volume (Nat.min n m) df.
Proof. unfold Pandas.nlargest_volume. apply take_take. Qed.

Lemma narrow_detail_records (rows : list (nat * OptionRecord)) :
  narrow <$> to_detail_records rows = Pandas.to_records rows.
Proof.
  unfold to_detail_records, Pandas.to_records. rewrite <- list_fmap_compose.
  by apply list_fmap_ext.
Qed.

(** X16: the two endpoints agree: when the single-symbol scan answers 200,
    the top-strikes endpoint answers 200 for the same symbol and price, and
    [topCallStrikes] / [topPutStrikes] are the first five of its [topCalls]
    / [topPuts], without the implied volatility. *)
Theorem top_five_is_prefix_of_top_ten (yf : Provider) (now sym : string)
    (a : SymbolAnalysis) :
  result (scan_symbol yf now sym) = Returned (Scan200 a) ->
  exists body,
    result (top_strikes yf now sym) = Returned (Top200 body) /\
    topCallStrikes a = narrow <$> take 5 (topCalls body) /\
    topPutStrikes a = narrow <$> take 5 (topPuts body) /\
    tsb_symbol body = symbol a /\ tsb_currentPrice body = currentPrice a.
Proof.
  intros Hscan.
  destruct (scan_symbol_answers yf now sym)
    as [_ [[_ H404] | (snap & a' & Hsnap & Ha & H200 & Hsym & Hp & _)]]; [congruence|].
  assert (a' = a) as -> by congruence.
  unfold top_strikes, try_except, mbind, IO_bind. rewrite Hsnap. cbn [result trace].
  eexists. split; [done|]. cbn [topCalls topPuts tsb_symbol tsb_currentPrice].
  unfold to_detail_records. rewrite <- !fmap_take, !nlargest_volume_take.
  fold (to_detail_records (Pandas.nlargest_volume (5 `min` 10) (calls snap))).
  fold (to_detail_records (Pandas.nlargest_volume (5 `min` 10) (puts snap))).
  rewrite !narrow_detail_records. cbn [Nat.min].
  revert Ha. unfold analyze_options.
  destruct (call_put_ratio _ _); [|done]. intros [= <-]. by cbn.
Qed.

(** ** Further properties of the analysis *)






(** ** Witnesses *)

Lemma chain_fetches_are_first_four_witness :
  chain_fetches (trace (get_options_data weekly_ticker)) = ["w1"; "w2"; "w3"; "w4"].
Proof.
  exact (chain_fetches_are_first_four weekly_ticker
           ["w1"; "w2"; "w3"; "w4"; "w5"; "w6"] eq_refl).
Defined.

Lemma snapshot_concatenates_kept_chains_witness :
  result (get_options_data weekly_ticker)
  = Returned (Some
      {| calls := Pandas.concat [Pandas.set_expiration "w1" [sample_row 7];
                                 Pandas.set_expiration "w4" [sample_row 7]];
         puts := Pandas.concat [Pandas.set_expiration "w1" [sample_row 3];
                                Pandas.set_expiration "w4" [sample_row 3]];
         current_price := 0 |}).
Proof.
  exact (snapshot_concatenates_kept_chains weekly_ticker
           ["w1"; "w2"; "w3"; "w4"; "w5"; "w6"] 0 eq_refl eq_refl).
Defined.

Lemma snapshot_records_come_from_near_chains_witness :
  expiration (Build_OptionRecord 100 1 (Some 7%Z) None None "2024-01-19")
  ∈ take 4 ["2024-01-19"].
Proof.
  apply (proj1 (snapshot_records_come_from_near_chains unpriced_ticker
                  ["2024-01-19"] (one_week_snapshot 0)
                  (Build_OptionRecord 100 1 (Some 7%Z) None None "2024-01-19")
                  eq_refl eq_refl)).
  apply list_elem_of_here.
Defined.

Lemma price_is_last_daily_close_witness :
  current_price (one_week_snapshot 10) = 10%Q /\
  CallInfo ∉ trace (get_options_data priced_ticker).
Proof.
  exact (price_is_last_daily_close priced_ticker [10%Q] 10 (one_week_snapshot 10)
           eq_refl eq_refl eq_refl).
Defined.

Lemma history_failure_skips_quote_witness :
  current_price (one_week_snapshot 0) = 0%Q /\
  CallInfo ∉ trace (get_options_data quoted_ticker).
Proof.
  exact (history_failure_skips_quote quoted_ticker (one_week_snapshot 0)
           eq_refl eq_refl).
Defined.


Lemma empty_batch_is_rejected_witness :
  result (scan_multiple (fun _ => active_ticker) "now" (with_symbols default_request []))
  = Returned Batch400 /\
  trace (scan_multiple (fun _ => active_ticker) "now" (with_symbols default_request []))
  = [].
Proof.
  split.
  - apply (proj1 (empty_batch_is_rejected (fun _ => active_ticker) "now"
                    (with_symbols default_request []))). reflexivity.
  - apply (proj2 (empty_batch_is_rejected (fun _ => active_ticker) "now"
                    (with_symbols default_request []))). reflexivity.
Defined.


Lemma batch_results_concatenate_witness :
  exists s1 r1 s,
    result (scan_multiple (fun _ => active_ticker) "now"
              (with_symbols default_request ["spy"]))
    = Returned (Batch200 s1 r1) /\
    result (scan_multiple (fun _ => active_ticker) "now"
              (with_symbols default_request (["spy"] ++ ["spy"])))
    = Returned (Batch200 s (r1 ++ r1)).
Proof.
  assert (exists s1 r1,
            result (scan_multiple (fun _ => active_ticker) "now"
                      (with_symbols default_request ["spy"]))
            = Returned (Batch200 s1 r1))
    as (s1 & r1 & H1) by (eexists _, _; vm_compute; reflexivity).
  destruct (batch_results_concatenate (fun _ => active_ticker) "now" default_request
              ["spy"] ["spy"] s1 s1 r1 r1 H1 H1) as [s Hs].
  by exists s1, r1, s.
Defined.



Lemma summary_counts_are_nested_witness :
  exists s, summarize [ErrorEntry "SPY" "Could not fetch data" false] "now" = Some s /\
    (flaggedCount s <= successfulScans s <= totalScanned s)%nat.
Proof.
  eexists. split; [reflexivity|].
  apply (summary_counts_are_nested
           [ErrorEntry "SPY" "Could not fetch data" false] "now"). reflexivity.
Defined.

Lemma top_five_is_prefix_of_top_ten_witness :
  exists a body,
    result (scan_symbol (fun _ => active_ticker) "now" "spy") = Returned (Scan200 a) /\
    result (top_strikes (fun _ => active_ticker) "now" "spy") = Returned (Top200 body) /\
    topCallStrikes a = narrow <$> take 5 (topCalls body).
Proof.
  assert (exists a,
            result (scan_symbol (fun _ => active_ticker) "now" "spy")
            = Returned (Scan200 a))
    as (a & Ha) by (eexists; vm_compute; reflexivity).
  destruct (top_five_is_prefix_of_top_ten _ _ _ _ Ha) as (body & Hb & Hc & _).
  by exists a, body.
Defined.

